(** * fusepy: the FUSE adapter of [fuse.py]

    A shallow embedding of the adapter class [FUSE] of [src/fuse.py]: the
    invocation envelope [_wrapper], the construction of the native callback
    table in [FUSE.__init__], the marshalling methods ([readlink], [read],
    [write], [getxattr], [listxattr], [readdir], [chown], [utimens], the
    handle-bearing callbacks) and the struct marshaller ([set_st_attrs],
    [time_of_timespec]); with them the version check made at import time
    ([get_fuse_version]), the argument list of the native main function
    ([FUSE.OPTIONS], [_normalize_fuse_options]) and the base class
    [Operations].

    Python objects are embedded as the inductive [pyval]; Python exceptions
    as [pyexc]; a Python call that may raise is a computation in the monad
    [M], which threads the natively owned memory the callback may write and
    a log of the calls made to the high-level implementation. Python floats
    are the kernel's binary64 floats. *)

From Stdlib Require Import ZArith List String Ascii Bool Lia Floats.
From stdpp Require Import gmap strings list pretty.

Open Scope Z_scope.

(** ** Python's [errno] module

    The error numbers the adapter itself uses. [EFAULT], [EINVAL] and
    [ERANGE] have these values on every platform [fuse.py] supports. *)
Module errno.
Definition ENOENT : Z := 2.
Definition EFAULT : Z := 14.
Definition EINVAL : Z := 22.
Definition ERANGE : Z := 34.
End errno.

(** ** Values *)

(** [class fuse_file_info(ctypes.Structure)]: the native per-open-file
    record, with the fields of its [_fields_]. *)
Record fuse_file_info : Type := mk_fuse_file_info {
  flags : Z;
  fh_old : Z;
  writepage : Z;
  direct_io : Z;
  keep_cache : Z;
  flush_bit : Z;
  nonseekable : Z;
  flock_release : Z;
  padding : Z;
  fh : Z;
  lock_owner : Z
}.

#[local] Set Warnings "-register-all".

(** The Python objects that cross the boundary between the adapter and the
    high-level implementation. *)
Inductive pyval : Type :=
| VNone
| VInt (z : Z)
| VFloat (f : float)
| VStr (s : string)
| VBytes (b : list Byte.byte)
| VTuple (l : list pyval)
| VList (l : list pyval)
| VDict (d : list (string * pyval))
| VFileInfo (fi : fuse_file_info)
| VPointer (addr : Z).

(** Python truthiness, as used by [x or 0], [if not x] and [if x]. *)
Definition truthy (v : pyval) : bool :=
  match v with
  | VNone => false
  | VInt z => negb (z =? 0)
  | VFloat f => negb (PrimFloat.eqb f 0%float)
  | VStr s => negb (String.eqb s EmptyString)
  | VBytes b => match b with [] => false | _ => true end
  | VTuple l | VList l => match l with [] => false | _ => true end
  | VDict d => match d with [] => false | _ => true end
  | VFileInfo _ => true
  | VPointer a => negb (a =? 0)
  end.

(** [v or 0] *)
Definition or0 (v : pyval) : pyval := if truthy v then v else VInt 0.

(** ** Exceptions *)

(** The [errno] attribute of an [OSError]: an [int], or some other object
    ([None] for [OSError('message')], a string, ...). *)
Inductive pyerrno : Type :=
| ErrnoInt (e : Z)
| ErrnoOther.

(** The exception classes that matter to the adapter. [OSError] stands for
    the class and its subclasses ([FuseOSError], [IOError], ...).
    [KeyboardInterrupt], [SystemExit], [GeneratorExit] and
    [UserBaseException] derive from [BaseException] but not from
    [Exception]. *)
Inductive pyexc : Type :=
| OSError (e : pyerrno)
| AssertionError (msg : string)
| AttributeError
| TypeError
| ValueError
| UnicodeDecodeError
| UnicodeEncodeError
| OverflowError
| ArgumentError
| RuntimeError (arg : Z)
| UserException (name : string)
| KeyboardInterrupt
| SystemExit (code : Z)
| GeneratorExit
| UserBaseException (name : string).

(** [isinstance(e, Exception)] *)
Definition isinstance_Exception (e : pyexc) : bool :=
  match e with
  | KeyboardInterrupt | SystemExit _ | GeneratorExit | UserBaseException _ => false
  | _ => true
  end.

(** [isinstance(e, OSError)], giving the [errno] attribute. *)
Definition isinstance_OSError (e : pyexc) : option pyerrno :=
  match e with
  | OSError n => Some n
  | _ => None
  end.

(** [class FuseOSError(OSError)]: [__init__(errno)] passes [errno] and its
    message to [OSError], which stores it in the [errno] attribute. *)
Definition FuseOSError (n : Z) : pyexc := OSError (ErrnoInt n).

(** The outcome of a Python call: a value, or a raised exception. *)
Inductive result (A : Type) : Type :=
| Ok (a : A)
| Raise (e : pyexc).
Arguments Ok {A} a.
Arguments Raise {A} e.

(** ** The computation monad

    A callback runs against a [world]: the log of calls made so far to the
    high-level implementation ([self.operations(op, *args)]), and the
    natively owned memory [S] the callback may write through its pointer
    arguments. An exception stops the computation and keeps the effects made
    before it. *)
Definition opcall : Type := string * list pyval.

Record world (S : Type) : Type := mk_world {
  calls : list opcall;
  native : S
}.
Arguments mk_world {S} calls native.
Arguments calls {S} w.
Arguments native {S} w.

Definition M (S A : Type) : Type := world S -> result A * world S.

Definition ret {S A} (a : A) : M S A := fun w => (Ok a, w).

Definition raise {S A} (e : pyexc) : M S A := fun w => (Raise e, w).

Definition bind {S A B} (m : M S A) (k : A -> M S B) : M S B :=
  fun w =>
    match m w with
    | (Ok a, w') => k a w'
    | (Raise e, w') => (Raise e, w')
    end.

Notation "'let*' x ':=' m 'in' k" := (bind m (fun x => k))
  (at level 10, x name, m at level 100, k at level 200).

(** Lift the outcome of a pure call. *)
Definition lift {S A} (r : result A) : M S A := fun w => (r, w).

(** Read and write the native memory. *)
Definition get_native {S} : M S S := fun w => (Ok (native w), w).

Definition put_native {S} (s : S) : M S unit :=
  fun w => (Ok tt, mk_world (calls w) s).

(** ** The high-level implementation

    An attribute of the operations object that the adapter looks up by name:
    a bound method, with its [libfuse_ignore] mark (set by
    [_nullable_dummy_function], [False] when absent) and its behaviour. *)
Record method : Type := mk_method {
  libfuse_ignore : bool;
  run : list pyval -> result pyval
}.

(** The operations object: [getattr(operations, name, None)] for method
    names, and its [use_ns] attribute ([getattr(operations, 'use_ns',
    False)]). *)
Record Operations : Type := mk_Operations {
  attr : string -> option method;
  ops_use_ns : bool
}.

(** [Operations.__call__(self, op, *args)] *)
Definition Operations__call__ (ops : Operations) (op : string) (args : list pyval)
  : result pyval :=
  match attr ops op with
  | None => Raise (FuseOSError errno.EFAULT)
  | Some m => run m args
  end.

(** ** Text encoding

    [bytes.decode(encoding)] may raise [UnicodeDecodeError];
    [str.encode(encoding)] may raise [UnicodeEncodeError]. The codec is
    Python's; it is a component of the adapter object ([self.encoding]). *)
Record codec : Type := mk_codec {
  decode : list Byte.byte -> option string;
  encode : string -> option (list Byte.byte)
}.

(** ** The adapter object

    The attributes of [FUSE] that are fixed by [__init__]. *)
Record FUSE : Type := mk_FUSE {
  operations : Operations;
  raw_fi : bool;
  encoding : codec;
  use_ns : bool
}.

(** The attributes of a running session that change: the recorded critical
    exception ([self.__critical_exception]) and whether the native session
    has been told to exit ([fuse_exit()]). *)
Record session : Type := mk_session {
  critical_exception : option pyexc;
  exit_requested : bool
}.

Definition session0 : session :=
  {| critical_exception := None; exit_requested := false |}.

(** [fuse_exit()]: flags the native session as terminated (by
    [_libfuse.fuse_exit], or by [SIGTERM] on OpenBSD). *)
Definition fuse_exit (s : session) : session :=
  {| critical_exception := critical_exception s; exit_requested := true |}.

(** [self.operations(op, *args)]: logs the call and gives its outcome. *)
Definition call_operations {S} (self : FUSE) (op : string) (args : list pyval)
  : M S pyval :=
  fun w =>
    (Operations__call__ (operations self) op args,
     mk_world (calls w ++ [(op, args)]) (native w)).

(** [path.decode(self.encoding)] *)
Definition decode_path {S} (self : FUSE) (path : list Byte.byte) : M S pyval :=
  match decode (encoding self) path with
  | Some s => ret (VStr s)
  | None => raise UnicodeDecodeError
  end.

(** [FUSE._decode_optional_path]: the [c_char_p] argument is [None] for a
    NULL path. *)
Definition _decode_optional_path {S} (self : FUSE) (path : option (list Byte.byte))
  : M S pyval :=
  match path with
  | None => ret VNone
  | Some p => decode_path self p
  end.

(** ** The invocation envelope *)

(** A callable with its [__name__], already applied to its arguments. *)
Record func (S : Type) : Type := mk_func {
  __name__ : string;
  body : M S pyval
}.
Arguments mk_func {S} __name__ body.
Arguments __name__ {S} f.
Arguments body {S} f.

(** The [except BaseException] clause of [_wrapper]. *)
Definition critical {S} (e : pyexc) (s : session) (w : world S)
  : pyval * session * world S :=
  (VInt (- errno.EFAULT),
   fuse_exit {| critical_exception := Some e; exit_requested := exit_requested s |},
   w).

(** [FUSE._wrapper(self, func, *args, **kwargs)] *)
Definition _wrapper {S} (f : func S) (s : session) (w : world S)
  : pyval * session * world S :=
  if String.eqb (__name__ f) "init" then
    match body f w with
    | (Ok v, w') => (or0 v, s, w')
    | (Raise e, w') => critical e s w'
    end
  else
    match body f w with
    | (Ok v, w') => (or0 v, s, w')
    | (Raise e, w') =>
        match isinstance_OSError e with
        | Some n =>
            match n with
            | ErrnoInt en =>
                if 0 <? en then (VInt (- en), s, w')
                else (VInt (- errno.EINVAL), s, w')
            | ErrnoOther => (VInt (- errno.EINVAL), s, w')
            end
        | None =>
            if isinstance_Exception e then (VInt (- errno.EINVAL), s, w')
            else critical e s w'
        end
    end.

(** ** ctypes integers and pointers *)

(** The value an unsigned, respectively signed, ctypes integer of [bits] bits
    holds after a Python [int] is stored in it: ctypes does no overflow
    checking, the value wraps around. *)
Definition c_unsigned (bits : Z) (x : Z) : Z := x mod 2 ^ bits.

Definition c_signed (bits : Z) (x : Z) : Z :=
  (x + 2 ^ (bits - 1)) mod 2 ^ bits - 2 ^ (bits - 1).

(** [c_uid_t] and [c_gid_t] are [c_uint] or [c_uint32] on every platform;
    [c_off_t] is [c_longlong] or [c_int64]. *)
Definition c_uid_t (x : Z) : Z := c_unsigned 32 x.
Definition c_gid_t (x : Z) : Z := c_unsigned 32 x.
Definition c_off_t (x : Z) : Z := c_signed 64 x.

(** A ctypes pointer argument: NULL, or a pointer to a value. *)
Inductive pointer (A : Type) : Type :=
| NULL
| Ptr (a : A).
Arguments NULL {A}.
Arguments Ptr {A} a.

(** [p.contents]: [ValueError: NULL pointer access] on a NULL pointer. *)
Definition contents {S A} (p : pointer A) : M S A :=
  match p with
  | NULL => raise ValueError
  | Ptr a => ret a
  end.

(** [ctypes.memmove(dst, src, n)] on the memory that starts at [dst]: the
    first [n] bytes are overwritten by those of [src]. A write past the end
    of the region shows as the region growing. *)
Definition memmove (dst src : list Byte.byte) (n : Z) : list Byte.byte :=
  firstn (Z.to_nat n) src ++ skipn (Z.to_nat n) dst.

(** [ctypes.string_at(ptr, size)] *)
Definition string_at (mem : list Byte.byte) (size : Z) : list Byte.byte :=
  firstn (Z.to_nat size) mem.

(** [ctypes.create_string_buffer(init)]: a buffer one byte longer than
    [init], NUL-terminated. *)
Definition create_string_buffer (init : list Byte.byte) : list Byte.byte :=
  init ++ [Byte.x00].

(** [ctypes.create_string_buffer(init, size)]: a buffer of exactly [size]
    bytes that starts with [init], zero-filled. *)
Definition create_string_buffer_sized (init : list Byte.byte) (size : Z)
  : list Byte.byte :=
  firstn (Z.to_nat size) (init ++ repeat Byte.x00 (Z.to_nat size)).

(** [len(x)] on a list of bytes, as a Python [int]. *)
Definition len {A} (l : list A) : Z := Z.of_nat (length l).

(** The slice [b[:stop]] of Python: a negative [stop] counts from the end. *)
Definition slice_to {A} (l : list A) (stop : Z) : list A :=
  if stop <? 0 then firstn (Z.to_nat (len l + stop)) l
  else firstn (Z.to_nat stop) l.

(** ** Python numbers *)

(** [float(z)] for a Python [int]: the nearest binary64 float. *)
Definition float_of_int (z : Z) : float :=
  SF2Prim (binary_normalize prec emax z 0 false).

(** [int(f)] for a Python [float]: truncation towards zero; [OverflowError]
    on an infinity, [ValueError] on a NaN. *)
Definition int_of_float (f : float) : result Z :=
  match Prim2SF f with
  | S754_zero _ => Ok 0
  | S754_finite s m e =>
      let a := if 0 <=? e then Z.shiftl (Zpos m) e else Z.shiftr (Zpos m) (- e) in
      Ok (if s then - a else a)
  | S754_infinity _ => Raise OverflowError
  | S754_nan => Raise ValueError
  end.

(** [int(val)] for a time value handed over by the implementation: a Python
    [int] or [float]. Other objects have no integer value. *)
Definition py_int (val : pyval) : result Z :=
  match val with
  | VInt z => Ok z
  | VFloat f => int_of_float f
  | _ => Raise TypeError
  end.

(** [int((val - sec) * 1E9)], with [sec] a Python [int] read back from a
    ctypes field. *)
Definition frac_nsec (val : pyval) (sec : Z) : result Z :=
  match val with
  | VInt z => int_of_float (PrimFloat.mul (float_of_int (z - sec)) 1e9%float)
  | VFloat f =>
      int_of_float (PrimFloat.mul (PrimFloat.sub f (float_of_int sec)) 1e9%float)
  | _ => Raise TypeError
  end.

(** ** The native records *)

(** The platform as [fuse.py] sees it at import time: the widths of the two
    fields of [c_timespec] ([c_long], [c_win_long] or [c_time_t]) and the
    [_fields_] of [c_stat]. *)
Inductive ctype : Type :=
| c_integer (signed : bool) (bits : Z)
| c_timespec_t.

Record platform : Type := mk_platform {
  tv_sec_bits : Z;
  tv_nsec_bits : Z;
  c_stat_fields : list (string * ctype)
}.

(** [class c_timespec(ctypes.Structure)] *)
Record c_timespec : Type := mk_timespec {
  tv_sec : Z;
  tv_nsec : Z
}.

(** [class c_utimbuf(ctypes.Structure)] *)
Record c_utimbuf : Type := mk_utimbuf {
  actime : c_timespec;
  modtime : c_timespec
}.

(** A field of a [c_stat]: its ctypes type and the value it holds. *)
Inductive field : Type :=
| FInt (signed : bool) (bits : Z) (v : Z)
| FTimespec (ts : c_timespec).

(** A [c_stat] instance: its fields by name. *)
Definition c_stat : Type := gmap string field.

Definition zero_field (t : ctype) : field :=
  match t with
  | c_integer sg bits => FInt sg bits 0
  | c_timespec_t => FTimespec (mk_timespec 0 0)
  end.

(** [c_stat()], and [ctypes.memset(buf, 0, ctypes.sizeof(c_stat))]: every
    field is zero. *)
Definition c_stat_new (plat : platform) : c_stat :=
  list_to_map (map (fun '(name, t) => (name, zero_field t)) (c_stat_fields plat)).

(** Storing a Python [int] into an integer field. *)
Definition store_int (sg : bool) (bits : Z) (x : Z) : Z :=
  if sg then c_signed bits x else c_unsigned bits x.

(** The [_fields_] of [c_stat] on Linux x86_64, where [c_long] has 64
    bits. *)
Definition linux_x86_64 : platform :=
  {| tv_sec_bits := 64;
     tv_nsec_bits := 64;
     c_stat_fields :=
       [("st_dev", c_integer false 64); ("st_ino", c_integer false 64);
        ("st_nlink", c_integer false 64); ("st_mode", c_integer false 32);
        ("st_uid", c_integer false 32); ("st_gid", c_integer false 32);
        ("__pad0", c_integer true 32); ("st_rdev", c_integer false 64);
        ("st_size", c_integer true 64); ("st_blksize", c_integer true 64);
        ("st_blocks", c_integer true 64); ("st_atimespec", c_timespec_t);
        ("st_mtimespec", c_timespec_t); ("st_ctimespec", c_timespec_t)]%string |}.

(** The fallback [_fields_] of [c_stat] on Linux (i686), where [c_long] has
    32 bits. *)
Definition linux_i686 : platform :=
  {| tv_sec_bits := 32;
     tv_nsec_bits := 32;
     c_stat_fields :=
       [("st_dev", c_integer false 64); ("__pad1", c_integer false 16);
        ("__st_ino", c_integer false 32); ("st_mode", c_integer false 32);
        ("st_nlink", c_integer false 32); ("st_uid", c_integer false 32);
        ("st_gid", c_integer false 32); ("st_rdev", c_integer false 64);
        ("__pad2", c_integer false 16); ("st_size", c_integer true 64);
        ("st_blksize", c_integer true 32); ("st_blocks", c_integer true 64);
        ("st_atimespec", c_timespec_t); ("st_mtimespec", c_timespec_t);
        ("st_ctimespec", c_timespec_t); ("st_ino", c_integer false 64)]%string |}.



(** ** The struct marshaller *)

(** [time_of_timespec(ts, use_ns)] *)
Definition time_of_timespec (ts : c_timespec) (use_ns : bool) : pyval :=
  if use_ns then VInt (tv_sec ts * 10 ^ 9 + tv_nsec ts)
  else
    VFloat (PrimFloat.add (float_of_int (tv_sec ts))
              (PrimFloat.div (float_of_int (tv_nsec ts)) 1e9%float)).

(** The assignments to [timespec.tv_sec] and [timespec.tv_nsec] in
    [set_st_attrs], on the timespec [ts]. In the nanosecond representation
    the pair is [divmod(int(val), 10 ** 9)]; otherwise [tv_sec] is
    [int(val)] and [tv_nsec] is computed from the value read back from
    [tv_sec], which is already stored when that computation raises. *)
Definition set_timespec (plat : platform) (ts : c_timespec) (val : pyval)
    (use_ns : bool) : result unit * c_timespec :=
  if use_ns then
    match py_int val with
    | Ok v =>
        (Ok tt,
         {| tv_sec := c_signed (tv_sec_bits plat) (v / 10 ^ 9);
            tv_nsec := c_signed (tv_nsec_bits plat) (v mod 10 ^ 9) |})
    | Raise e => (Raise e, ts)
    end
  else
    match py_int val with
    | Ok v =>
        let sec := c_signed (tv_sec_bits plat) v in
        match frac_nsec val sec with
        | Ok n =>
            (Ok tt, {| tv_sec := sec; tv_nsec := c_signed (tv_nsec_bits plat) n |})
        | Raise e => (Raise e, {| tv_sec := sec; tv_nsec := tv_nsec ts |})
        end
    | Raise e => (Raise e, ts)
    end.

Definition is_time_key (key : string) : bool :=
  existsb (String.eqb key) ["st_atime"; "st_mtime"; "st_ctime"; "st_birthtime"]%string.

(** One iteration of the loop of [set_st_attrs]. *)
Definition set_st_attr (plat : platform) (use_ns : bool) (st : c_stat)
    (key : string) (val : pyval) : result unit * c_stat :=
  if is_time_key key then
    match st !! (key ++ "spec")%string with
    | Some (FTimespec ts) =>
        let '(r, ts') := set_timespec plat ts val use_ns in
        (r, <[(key ++ "spec")%string := FTimespec ts']> st)
    | Some (FInt _ _ _) => (Raise AttributeError, st)
    | None => (Ok tt, st)
    end
  else
    match st !! key with
    | Some (FInt sg bits _) =>
        match val with
        | VInt z => (Ok tt, <[key := FInt sg bits (store_int sg bits z)]> st)
        | _ => (Raise TypeError, st)
        end
    | Some (FTimespec _) =>
        match val with
        | VTuple [VInt s; VInt n] =>
            (Ok tt,
             <[key := FTimespec {| tv_sec := c_signed (tv_sec_bits plat) s;
                                  tv_nsec := c_signed (tv_nsec_bits plat) n |}]> st)
        | _ => (Raise TypeError, st)
        end
    | None => (Ok tt, st)
    end.

(** [set_st_attrs(st, attrs, use_ns)]: the loop over [attrs.items()]. An
    exception leaves the fields set so far in place. *)
Fixpoint set_st_attrs (plat : platform) (st : c_stat)
    (attrs : list (string * pyval)) (use_ns : bool) : result unit * c_stat :=
  match attrs with
  | [] => (Ok tt, st)
  | (key, val) :: rest =>
      match set_st_attr plat use_ns st key val with
      | (Ok _, st') => set_st_attrs plat st' rest use_ns
      | (Raise e, st') => (Raise e, st')
      end
  end.

(** [set_st_attrs] as a step of a callback that owns the record. *)
Definition set_st_attrs_M (plat : platform) (attrs : pyval) (use_ns : bool)
  : M c_stat unit :=
  fun w =>
    match attrs with
    | VDict d =>
        let '(r, st) := set_st_attrs plat (native w) d use_ns in
        (r, mk_world (calls w) st)
    | _ => (Raise AttributeError, w)
    end.

(** ** Iteration and text *)

(** The items [for x in v] goes through: the elements of a list or tuple
    (a generator is given as the list of what it yields), the characters of
    a string, the keys of a dict. *)
Definition py_iter (v : pyval) : result (list pyval) :=
  match v with
  | VList l | VTuple l => Ok l
  | VStr s => Ok (map (fun c => VStr (String c EmptyString)) (list_ascii_of_string s))
  | VDict d => Ok (map (fun kv => VStr (fst kv)) d)
  | _ => Raise TypeError
  end.

(** [sep.join(items)]: every item has to be a [str]. *)
Fixpoint str_join (sep : string) (items : list pyval) : result string :=
  match items with
  | [] => Ok EmptyString
  | [VStr s] => Ok s
  | VStr s :: rest =>
      match str_join sep rest with
      | Ok t => Ok (s ++ sep ++ t)%string
      | Raise e => Raise e
      end
  | _ :: _ => Raise TypeError
  end.

(** The string ['\x00']. *)
Definition NUL : string := String Ascii.zero EmptyString.

(** [s.encode(self.encoding)] *)
Definition encode_text (self : FUSE) (s : string) : result (list Byte.byte) :=
  match encode (encoding self) s with
  | Some b => Ok b
  | None => Raise UnicodeEncodeError
  end.

Definition encode_str {S} (self : FUSE) (s : string) : M S (list Byte.byte) :=
  lift (encode_text self s).

(** Sequencing of pure calls that may raise. *)
Definition and_then {A B} (r : result A) (k : A -> result B) : result B :=
  match r with
  | Ok a => k a
  | Raise e => Raise e
  end.

(** [fi.fh = v] for the [c_uint64] field [fh]. *)
Definition set_fh (fi : fuse_file_info) (v : Z) : fuse_file_info :=
  {| flags := flags fi; fh_old := fh_old fi; writepage := writepage fi;
     direct_io := direct_io fi; keep_cache := keep_cache fi;
     flush_bit := flush_bit fi; nonseekable := nonseekable fi;
     flock_release := flock_release fi; padding := padding fi;
     fh := c_unsigned 64 v; lock_owner := lock_owner fi |}.

(** Storing the object an operation returned into [fi.fh]. *)
Definition store_fh {S} (fi : fuse_file_info) (v : pyval) : M S fuse_file_info :=
  match v with
  | VInt z => ret (set_fh fi z)
  | _ => raise TypeError
  end.

(** ** The callbacks of [class FUSE]

    Each method is written as in the source: arguments are decoded in the
    order Python evaluates them, then [self.operations] is called. A path
    argument is the byte string of a [c_char_p]; [mode], [dev], [length],
    [size], [offset] and the like are Python [int]s; pointer arguments the
    adapter only passes along are given as the object ctypes made of
    them. *)
Section Callbacks.

Variable plat : platform.
Variable self : FUSE.

Definition bytes := list Byte.byte.

(** [FUSE.fgetattr(self, path, buf, fip)]: [fip] is [None] when called from
    [FUSE.getattr], else the pointer libfuse passed. *)
Definition fgetattr (path : option bytes) (fip : option (pointer fuse_file_info))
  : M c_stat pyval :=
  let* _ := put_native (c_stat_new plat) in
  let* fh :=
    match fip with
    | Some (Ptr fi) => ret (if raw_fi self then VFileInfo fi else VInt (fh fi))
    | Some NULL => ret (VPointer 0)
    | None => ret VNone
    end in
  let* p := _decode_optional_path self path in
  let* attrs := call_operations self "getattr" [p; fh] in
  let* _ := set_st_attrs_M plat attrs (use_ns self) in
  ret (VInt 0).

(** [FUSE.getattr(self, path, buf)] *)
Definition getattr (path : option bytes) : M c_stat pyval :=
  fgetattr path None.

(** [FUSE.readlink(self, path, buf, bufsize)] *)
Definition readlink (path : bytes) (bufsize : Z) : M bytes pyval :=
  let* p := decode_path self path in
  let* r := call_operations self "readlink" [p] in
  let* ret_ :=
    match r with
    | VStr s => encode_str self s
    | _ => raise AttributeError
    end in
  let data := create_string_buffer (slice_to ret_ (bufsize - 1)) in
  let* buf := get_native in
  let* _ := put_native (memmove buf data (len data)) in
  ret (VInt 0).








Definition chmod {S} (path : bytes) (mode : Z) : M S pyval :=
  let* p := decode_path self path in
  call_operations self "chmod" [p; VInt mode].

(** [FUSE.chown(self, path, uid, gid)] *)
Definition chown {S} (path : bytes) (uid gid : Z) : M S pyval :=
  let uid := if c_uid_t (uid + 1) =? 0 then -1 else uid in
  let gid := if c_gid_t (gid + 1) =? 0 then -1 else gid in
  let* p := decode_path self path in
  call_operations self "chown" [p; VInt uid; VInt gid].


(** [FUSE.open(self, path, fip)]: the memory behind [fip] is the state. *)
Definition open (path : bytes) : M (pointer fuse_file_info) pyval :=
  let* fip := get_native in
  let* fi := contents fip in
  if raw_fi self then
    let* p := decode_path self path in
    call_operations self "open" [p; VFileInfo fi]
  else
    let* p := decode_path self path in
    let* r := call_operations self "open" [p; VInt (flags fi)] in
    let* fi' := store_fh fi r in
    let* _ := put_native (Ptr fi') in
    ret (VInt 0).

(** [FUSE.read(self, path, buf, size, offset, fip)] *)
Definition read (path : option bytes) (size offset : Z)
    (fip : pointer fuse_file_info) : M bytes pyval :=
  let* fi := contents fip in
  let fh := if raw_fi self then VFileInfo fi else VInt (fh fi) in
  let* p := _decode_optional_path self path in
  let* ret_ := call_operations self "read" [p; VInt size; VInt offset; fh] in
  if negb (truthy ret_) then ret (VInt 0)
  else
    match ret_ with
    | VBytes b =>
        let retsize := len b in
        if retsize <=? size then
          let* buf := get_native in
          let* _ := put_native (memmove buf b retsize) in
          ret (VInt retsize)
        else raise (AssertionError "actual amount read greater than expected")
    | VStr s =>
        if Z.of_nat (String.length s) <=? size then raise ArgumentError
        else raise (AssertionError "actual amount read greater than expected")
    | VList l | VTuple l =>
        if len l <=? size then raise ArgumentError
        else raise (AssertionError "actual amount read greater than expected")
    | VDict d =>
        if len d <=? size then raise ArgumentError
        else raise (AssertionError "actual amount read greater than expected")
    | _ => raise TypeError
    end.

(** [FUSE.write(self, path, buf, size, offset, fip)] *)
Definition write (path : option bytes) (buf : bytes) (size offset : Z)
    (fip : pointer fuse_file_info) : M unit pyval :=
  let data := string_at buf size in
  let* fi := contents fip in
  let fh := if raw_fi self then VFileInfo fi else VInt (fh fi) in
  let* p := _decode_optional_path self path in
  call_operations self "write" [p; VBytes data; VInt offset; fh].



Definition flush {S} (path : option bytes) (fip : pointer fuse_file_info)
  : M S pyval :=
  let* fi := contents fip in
  let fh := if raw_fi self then VFileInfo fi else VInt (fh fi) in
  let* p := _decode_optional_path self path in
  call_operations self "flush" [p; fh].

Definition release {S} (path : option bytes) (fip : pointer fuse_file_info)
  : M S pyval :=
  let* fi := contents fip in
  let fh := if raw_fi self then VFileInfo fi else VInt (fh fi) in
  let* p := _decode_optional_path self path in
  call_operations self "release" [p; fh].

Definition fsync {S} (path : option bytes) (datasync : Z)
    (fip : pointer fuse_file_info) : M S pyval :=
  let* fi := contents fip in
  let fh := if raw_fi self then VFileInfo fi else VInt (fh fi) in
  let* p := _decode_optional_path self path in
  call_operations self "fsync" [p; VInt datasync; fh].


(** [FUSE.getxattr(self, path, name, value, size, *args)]: the state is the
    pointer [value] with the memory behind it. [len(ret)] is taken before
    anything requires [ret] to be a byte string. *)
Definition getxattr (path name : bytes) (size : Z) (args : list pyval)
  : M (pointer bytes) pyval :=
  let* p := decode_path self path in
  let* n := decode_path self name in
  let* ret_ := call_operations self "getxattr" ([p; n] ++ args) in
  let* retsize :=
    match ret_ with
    | VBytes b => ret (len b)
    | VStr s => ret (Z.of_nat (String.length s))
    | VList l | VTuple l => ret (len l)
    | VDict d => ret (len d)
    | _ => raise TypeError
    end in
  let* value := get_native in
  match value with
  | NULL => ret (VInt retsize)
  | Ptr mem =>
      if size <? retsize then ret (VInt (- errno.ERANGE))
      else
        match ret_ with
        | VBytes b =>
            let buf := create_string_buffer_sized b retsize in
            let* _ := put_native (Ptr (memmove mem buf retsize)) in
            ret (VInt retsize)
        | _ => raise TypeError
        end
  end.

(** The byte string [ret] that [FUSE.listxattr] builds from what the
    operation returned: the names joined by NUL, encoded, and NUL-terminated
    when not empty. *)
Definition listxattr_ret (r : pyval) : result bytes :=
  let attrs := if truthy r then r else VStr EmptyString in
  and_then (py_iter attrs) (fun items =>
  and_then (str_join NUL items) (fun joined =>
  and_then (encode_text self joined) (fun ret0 =>
  if 0 <? len ret0 then
    and_then (encode_text self NUL) (fun z => Ok (ret0 ++ z))
  else Ok ret0))).



(** [FUSE.opendir(self, path, fip)] (the source: "Ignore raw_fi"): the
    right-hand side of the assignment to [fip.contents.fh] is evaluated
    first. *)
Definition opendir (path : bytes) : M (pointer fuse_file_info) pyval :=
  let* p := decode_path self path in
  let* r := call_operations self "opendir" [p] in
  let* fip := get_native in
  let* fi := contents fip in
  let* fi' := store_fh fi r in
  let* _ := put_native (Ptr fi') in
  ret (VInt 0).

(** The kernel-supplied filler of [readdir]: called with the encoded name,
    the attribute record or [None], and the offset, it updates the directory
    buffer [F] it owns and returns an [int]. *)
Definition filler_t (F : Type) : Type :=
  F -> bytes -> option c_stat -> Z -> Z * F.

(** What [readdir] makes of one item: [(name, st, offset)]. *)
Definition readdir_entry (item : pyval) : result (pyval * option c_stat * pyval) :=
  match item with
  | VStr _ => Ok (item, None, VInt 0)
  | VTuple [name; attrs; offset] | VList [name; attrs; offset] =>
      if truthy attrs then
        match attrs with
        | VDict d =>
            match set_st_attrs plat (c_stat_new plat) d (use_ns self) with
            | (Ok _, st) => Ok (name, Some st, offset)
            | (Raise e, _) => Raise e
            end
        | _ => Raise AttributeError
        end
      else Ok (name, None, offset)
  | VTuple _ | VList _ => Raise ValueError
  | _ => Raise TypeError
  end.

(** The arguments [readdir] calls the filler with for one item: the encoded
    name, the attribute record or [None], and the offset as a [c_off_t]. *)
Definition filler_args (item : pyval) : result (bytes * option c_stat * Z) :=
  and_then (readdir_entry item) (fun '(name, st, offset) =>
  and_then (match name with
            | VStr s => encode_text self s
            | _ => Raise AttributeError
            end) (fun name_b =>
  and_then (match offset with
            | VInt z => Ok (c_off_t z)
            | _ => Raise ArgumentError
            end) (fun off =>
  Ok (name_b, st, off)))).

(** The [for] loop of [readdir], over the items still to come: the filler is
    called on each item in turn, and a non-zero return breaks the loop. *)
Fixpoint readdir_loop {F} (filler : filler_t F) (items : list pyval) : M F unit :=
  match items with
  | [] => ret tt
  | item :: rest =>
      let* a := lift (filler_args item) in
      let '(name_b, st, off) := a in
      let* buf := get_native in
      let '(r, buf') := filler buf name_b st off in
      let* _ := put_native buf' in
      if negb (r =? 0) then ret tt
      else readdir_loop filler rest
  end.

(** [FUSE.readdir(self, path, buf, filler, offset, fip)] (the source:
    "Ignore raw_fi"): the state is the directory buffer [buf]. *)
Definition readdir {F} (path : option bytes) (filler : filler_t F)
    (fip : pointer fuse_file_info) : M F pyval :=
  let* p := _decode_optional_path self path in
  let* fi := contents fip in
  let* r := call_operations self "readdir" [p; VInt (fh fi)] in
  let* items := lift (py_iter r) in
  let* _ := readdir_loop filler items in
  ret (VInt 0).

(** [FUSE.releasedir(self, path, fip)] (the source: "Ignore raw_fi") *)
Definition releasedir {S} (path : option bytes) (fip : pointer fuse_file_info)
  : M S pyval :=
  let* p := _decode_optional_path self path in
  let* fi := contents fip in
  call_operations self "releasedir" [p; VInt (fh fi)].

(** [FUSE.fsyncdir(self, path, datasync, fip)] (the source: "Ignore
    raw_fi") *)
Definition fsyncdir {S} (path : option bytes) (datasync : Z)
    (fip : pointer fuse_file_info) : M S pyval :=
  let* p := _decode_optional_path self path in
  let* fi := contents fip in
  call_operations self "fsyncdir" [p; VInt datasync; VInt (fh fi)].

Definition init {S} : M S pyval :=
  call_operations self "init" [VStr "/"].

Definition destroy {S} : M S pyval :=
  call_operations self "destroy" [VStr "/"].


(** [FUSE.create(self, path, mode, fip)] *)
Definition create (path : bytes) (mode : Z) : M (pointer fuse_file_info) pyval :=
  let* fip := get_native in
  let* fi := contents fip in
  let* p := decode_path self path in
  if raw_fi self then
    call_operations self "create" [p; VInt mode; VFileInfo fi]
  else
    let* r := call_operations self "create" [p; VInt mode; VInt (flags fi)] in
    let* fi' := store_fh fi r in
    let* _ := put_native (Ptr fi') in
    ret (VInt 0).

(** [FUSE.ftruncate(self, path, length, fip)] *)
Definition ftruncate {S} (path : option bytes) (length : Z)
    (fip : pointer fuse_file_info) : M S pyval :=
  let* fi := contents fip in
  let fh := if raw_fi self then VFileInfo fi else VInt (fh fi) in
  let* p := _decode_optional_path self path in
  call_operations self "truncate" [p; VInt length; fh].

Definition lock {S} (path : option bytes) (fip : pointer fuse_file_info)
    (cmd : Z) (lock_p : pyval) : M S pyval :=
  let* fi := contents fip in
  let fh := if raw_fi self then VFileInfo fi else VInt (fh fi) in
  let* p := _decode_optional_path self path in
  call_operations self "lock" [p; fh; VInt cmd; lock_p].

(** [FUSE.utimens(self, path, buf)] *)
Definition utimens {S} (path : bytes) (buf : pointer c_utimbuf) : M S pyval :=
  let times :=
    match buf with
    | Ptr b =>
        let atime := time_of_timespec (actime b) (use_ns self) in
        let mtime := time_of_timespec (modtime b) (use_ns self) in
        VTuple [atime; mtime]
    | NULL => VNone
    end in
  let* p := decode_path self path in
  call_operations self "utimens" [p; times].


Definition ioctl {S} (path : bytes) (cmd : Z) (arg : pyval)
    (fip : pointer fuse_file_info) (flags_ : Z) (data : pyval) : M S pyval :=
  let* fi := contents fip in
  let fh := if raw_fi self then VFileInfo fi else VInt (fh fi) in
  let* p := decode_path self path in
  call_operations self "ioctl" [p; VInt cmd; arg; fh; VInt flags_; data].

Definition poll {S} (path : bytes) (fip : pointer fuse_file_info)
    (ph reventsp : pyval) : M S pyval :=
  let* fi := contents fip in
  let fh := if raw_fi self then VFileInfo fi else VInt (fh fi) in
  let* p := decode_path self path in
  call_operations self "poll" [p; fh; ph; reventsp].

Definition write_buf {S} (path : bytes) (buf : pyval) (offset : Z)
    (fip : pointer fuse_file_info) : M S pyval :=
  let* fi := contents fip in
  let fh := if raw_fi self then VFileInfo fi else VInt (fh fi) in
  let* p := decode_path self path in
  call_operations self "write_buf" [p; buf; VInt offset; fh].

Definition read_buf {S} (path : bytes) (bufpp : pyval) (size offset : Z)
    (fip : pointer fuse_file_info) : M S pyval :=
  let* fi := contents fip in
  let fh := if raw_fi self then VFileInfo fi else VInt (fh fi) in
  let* p := decode_path self path in
  call_operations self "read_buf" [p; bufpp; VInt size; VInt offset; fh].

Definition flock {S} (path : bytes) (fip : pointer fuse_file_info) (op : Z)
  : M S pyval :=
  let* fi := contents fip in
  let fh := if raw_fi self then VFileInfo fi else VInt (fh fi) in
  let* p := decode_path self path in
  call_operations self "flock" [p; fh; VInt op].

Definition fallocate {S} (path : bytes) (mode offset size : Z)
    (fip : pointer fuse_file_info) : M S pyval :=
  let* fi := contents fip in
  let fh := if raw_fi self then VFileInfo fi else VInt (fh fi) in
  let* p := decode_path self path in
  call_operations self "fallocate" [p; VInt mode; VInt offset; VInt size; fh].

End Callbacks.

(** ** The native callback table *)

(** The second component of an entry of [fuse_operations._fields_]: a
    function prototype made by [CFUNCTYPE] (it has [argtypes]), or a plain
    ctypes type ([c_void_p] for the deprecated slots, [c_uint] for the flag
    bit-fields). *)
Inductive prototype : Type :=
| CFUNCTYPE
| c_void_p
| c_uint.

(** [hasattr(prototype, 'argtypes')] *)
Definition hasattr_argtypes (p : prototype) : bool :=
  match p with
  | CFUNCTYPE => true
  | _ => false
  end.

(** [_fuse_operations_fields], as built at import time for the minor version
    of the loaded libfuse. *)
Definition _fuse_operations_fields (fuse_version_minor : Z)
  : list (string * prototype) :=
  [("getattr", CFUNCTYPE); ("readlink", CFUNCTYPE); ("getdir", c_void_p);
   ("mknod", CFUNCTYPE); ("mkdir", CFUNCTYPE); ("unlink", CFUNCTYPE);
   ("rmdir", CFUNCTYPE); ("symlink", CFUNCTYPE); ("rename", CFUNCTYPE);
   ("link", CFUNCTYPE); ("chmod", CFUNCTYPE); ("chown", CFUNCTYPE);
   ("truncate", CFUNCTYPE); ("utime", c_void_p); ("open", CFUNCTYPE);
   ("read", CFUNCTYPE); ("write", CFUNCTYPE); ("statfs", CFUNCTYPE);
   ("flush", CFUNCTYPE); ("release", CFUNCTYPE); ("fsync", CFUNCTYPE);
   ("setxattr", CFUNCTYPE); ("getxattr", CFUNCTYPE); ("listxattr", CFUNCTYPE);
   ("removexattr", CFUNCTYPE)]%string
  ++ (if 3 <=? fuse_version_minor then
        [("opendir", CFUNCTYPE); ("readdir", CFUNCTYPE);
         ("releasedir", CFUNCTYPE); ("fsyncdir", CFUNCTYPE);
         ("init", CFUNCTYPE); ("destroy", CFUNCTYPE)]%string
      else [])
  ++ (if 5 <=? fuse_version_minor then
        [("access", CFUNCTYPE); ("create", CFUNCTYPE);
         ("ftruncate", CFUNCTYPE); ("fgetattr", CFUNCTYPE)]%string
      else [])
  ++ (if 6 <=? fuse_version_minor then
        [("lock", CFUNCTYPE); ("utimens", CFUNCTYPE); ("bmap", CFUNCTYPE)]%string
      else [])
  ++ (if 8 <=? fuse_version_minor then
        [("flag_nullpath_ok", c_uint); ("flag_nopath", c_uint);
         ("flag_utime_omit_ok", c_uint); ("flag_reserved", c_uint);
         ("ioctl", CFUNCTYPE)]%string
      else [])
  ++ (if 9 <=? fuse_version_minor then
        [("poll", CFUNCTYPE); ("write_buf", CFUNCTYPE);
         ("read_buf", CFUNCTYPE); ("flock", CFUNCTYPE);
         ("fallocate", CFUNCTYPE)]%string
      else []).

(** What [__init__] stores in a field of [fuse_ops]: the prototype applied
    to [partial(self._wrapper, getattr(self, name))], that is the envelope
    around the method of [FUSE] called [name]; or, for a field that is not a
    function pointer, the attribute of the operations object itself. *)
Inductive slot : Type :=
| Callback (fuse_method : string)
| Raw (val : method).

(** The name looked up in the operations object: [check_name[1:]] for
    [ftruncate] and [fgetattr]. *)
Definition check_name (name : string) : string :=
  if existsb (String.eqb name) ["ftruncate"; "fgetattr"]%string then
    match name with
    | String _ rest => rest
    | EmptyString => EmptyString
    end
  else name.

(** One iteration of the loop over [fuse_operations._fields_]. *)
Definition install (ops : Operations) (fuse_ops : gmap string slot)
    (ent : string * prototype) : gmap string slot :=
  let '(name, prototype) := ent in
  match attr ops (check_name name) with
  | None => fuse_ops
  | Some val =>
      if libfuse_ignore val then fuse_ops
      else if hasattr_argtypes prototype then <[name := Callback name]> fuse_ops
      else <[name := Raw val]> fuse_ops
  end.

(** The table [fuse_ops] that [__init__] hands to [fuse_main_real]. *)
Definition build_fuse_ops (ops : Operations) (fuse_version_minor : Z)
  : gmap string slot :=
  fold_left (install ops) (_fuse_operations_fields fuse_version_minor) ∅.

(** The high-level implementation defines [name]: the attribute exists and
    is not marked [libfuse_ignore]. *)
Definition defines (ops : Operations) (name : string) : bool :=
  match attr ops name with
  | Some val => negb (libfuse_ignore val)
  | None => false
  end.

(** ** Mounting *)

(** The attributes [__init__] sets from its arguments. *)
Definition FUSE_new (ops : Operations) (raw_fi : bool) (encoding : codec) : FUSE :=
  {| operations := ops; raw_fi := raw_fi; encoding := encoding;
     use_ns := ops_use_ns ops |}.

(** A request of the kernel: an installed callback (a method of [FUSE] with
    its [__name__]) applied to the arguments and the memory of the
    request. *)
Record request : Type := mk_request {
  req_mem : Type;
  req_func : func req_mem;
  req_world : world req_mem
}.

(** A callback as libfuse calls it, through the envelope. Only the session
    attributes outlive the call. *)
Definition callback (r : request) (s : session) : pyval * session :=
  let '(v, s', _) := _wrapper (req_func r) s (req_world r) in (v, s').

(** The native loop [fuse_main_real], seen from the adapter: it runs the
    requests of the kernel one after the other. *)
Definition fuse_main_real (requests : list request) (s : session) : session :=
  fold_left (fun s r => snd (callback r s)) requests s.

(** The end of [__init__], after the native loop has returned [err]. *)
Definition after_loop (s : session) (err : Z) : result unit :=
  match critical_exception s with
  | Some e => Raise e
  | None => if negb (err =? 0) then Raise (RuntimeError err) else Ok tt
  end.


(** ** The version of the loaded library *)

(** [get_fuse_version(libfuse)], on the number [libfuse.fuse_version()]
    returns. *)
Definition get_fuse_version (version : Z) : result (Z * Z) :=
  if version <? 100 then Ok (version / 10, version mod 10)
  else if version <? 1000 then Ok (version / 100, version mod 100)
  else Raise AttributeError.

(** The assignment [fuse_version_major, fuse_version_minor =
    get_fuse_version(_libfuse)] at import time and the two checks that
    follow it. *)
Definition fuse_version_major_minor (version : Z) : result (Z * Z) :=
  and_then (get_fuse_version version) (fun '(fuse_version_major, fuse_version_minor) =>
  if (fuse_version_major =? 2) && (fuse_version_minor <? 6) then Raise AttributeError
  else if negb (fuse_version_major =? 2) then Raise AttributeError
  else Ok (fuse_version_major, fuse_version_minor)).

(** ** The arguments of the native main function *)

(** The values mount options are given as keyword arguments: [True] or
    [False], an [int], a [str], or [None]. *)
Inductive optval : Type :=
| OBool (b : bool)
| OInt (z : Z)
| OStr (s : string)
| ONone.

(** Python truthiness of an option value. *)
Definition opt_truthy (v : optval) : bool :=
  match v with
  | OBool b => b
  | OInt z => negb (z =? 0)
  | OStr s => negb (String.eqb s EmptyString)
  | ONone => false
  end.

(** [str(value)], as ['%s' % value] gives it. *)
Definition opt_str (v : optval) : string :=
  match v with
  | OBool true => "True"
  | OBool false => "False"
  | OInt z => pretty z
  | OStr s => s
  | ONone => "None"
  end.

(** [isinstance(value, bool)] *)
Definition isinstance_bool (v : optval) : option bool :=
  match v with
  | OBool b => Some b
  | _ => None
  end.

(** [FUSE._normalize_fuse_options], called with keyword arguments [kargs]:
    what the generator yields, over [kargs.items()] in order. *)
Fixpoint _normalize_fuse_options (kargs : list (string * optval)) : list string :=
  match kargs with
  | [] => []
  | (key, value) :: rest =>
      match isinstance_bool value with
      | Some b =>
          if b then key :: _normalize_fuse_options rest
          else _normalize_fuse_options rest
      | None => (key ++ "=" ++ opt_str value)%string :: _normalize_fuse_options rest
      end
  end.

(** [FUSE.OPTIONS] *)
Definition OPTIONS : list (string * string) :=
  [("foreground", "-f"); ("debug", "-d"); ("nothreads", "-s")]%string.

(** [d.pop(key, default)] on a dict given by its items in order: the value
    and the dict without the key. *)
Definition dict_pop (d : list (string * optval)) (key : string) (default : optval)
  : optval * list (string * optval) :=
  match find (fun kv => String.eqb (fst kv) key) d with
  | Some kv => (snd kv, List.filter (fun kv => negb (String.eqb (fst kv) key)) d)
  | None => (default, d)
  end.

(** [d.setdefault(key, default)]: a new key goes last. *)
Definition dict_setdefault (d : list (string * optval)) (key : string)
    (default : optval) : list (string * optval) :=
  match find (fun kv => String.eqb (fst kv) key) d with
  | Some _ => d
  | None => d ++ [(key, default)]
  end.

(** [args.extend(flag for arg, flag in self.OPTIONS if kwargs.pop(arg,
    False))]: the flags appended, and [kwargs] after the pops. *)
Fixpoint option_flags (options : list (string * string))
    (kwargs : list (string * optval)) : list string * list (string * optval) :=
  match options with
  | [] => ([], kwargs)
  | (arg, flag) :: rest =>
      let '(v, kwargs') := dict_pop kwargs arg (OBool false) in
      let '(flags, kwargs'') := option_flags rest kwargs' in
      (if opt_truthy v then flag :: flags else flags, kwargs'')
  end.

(** The list [args] of [FUSE.__init__] before it is encoded;
    [class_name] is [operations.__class__.__name__]. *)
Definition FUSE_args (class_name mountpoint : string)
    (kwargs : list (string * optval)) : list string :=
  let '(flags, kwargs) := option_flags OPTIONS kwargs in
  let kwargs := dict_setdefault kwargs "fsname" (OStr class_name) in
  ["fuse"%string] ++ flags
  ++ ["-o"%string; String.concat "," (_normalize_fuse_options kwargs); mountpoint].

(** [[arg.encode(encoding) for arg in args]] *)
Fixpoint encode_args (encoding : codec) (args : list string)
  : result (list (list Byte.byte)) :=
  match args with
  | [] => Ok []
  | arg :: rest =>
      match encode encoding arg with
      | Some b => and_then (encode_args encoding rest) (fun l => Ok (b :: l))
      | None => Raise UnicodeEncodeError
      end
  end.

(** [argv], the array handed to [fuse_main_real] with [argc = len(args)]. *)
Definition FUSE_argv (encoding : codec) (class_name mountpoint : string)
    (kwargs : list (string * optval)) : result (list (list Byte.byte)) :=
  encode_args encoding (FUSE_args class_name mountpoint kwargs).

(** ** [class Operations]: the default implementation

    Every method of the base class except [getattr] is marked by
    [_nullable_dummy_function]. The error numbers are those of Linux
    ([ENOTSUP] is set to 95 by [fuse.py] there). The number of arguments a
    method is called with is not checked here. *)
Module Operations_class.

Definition EIO : Z := 5.
Definition ENOTTY : Z := 25.
Definition EROFS : Z := 30.
Definition ENOSYS : Z := 38.
Definition ENOTSUP : Z := 95.

(** [S_IFDIR | 0o755] *)
Definition S_IFDIR_755 : Z := Z.lor 16384 493.

Definition _nullable_dummy_function (run : list pyval -> result pyval) : method :=
  {| libfuse_ignore := true; run := run |}.

Definition returns (v : pyval) : list pyval -> result pyval := fun _ => Ok v.

Definition raises (n : Z) : list pyval -> result pyval :=
  fun _ => Raise (FuseOSError n).

(** [Operations.getattr(self, path, fh=None)] *)
Definition getattr_method : method :=
  {| libfuse_ignore := false;
     run := fun args =>
       match args with
       | VStr "/" :: _ =>
           Ok (VDict [("st_mode", VInt S_IFDIR_755); ("st_nlink", VInt 2)]%string)
       | _ => Raise (FuseOSError errno.ENOENT)
       end |}.

Definition methods : list (string * method) :=
  [("access", _nullable_dummy_function (returns (VInt 0)));
   ("bmap", _nullable_dummy_function (returns VNone));
   ("chmod", _nullable_dummy_function (raises EROFS));
   ("chown", _nullable_dummy_function (raises EROFS));
   ("create", _nullable_dummy_function (raises EROFS));
   ("destroy", _nullable_dummy_function (returns VNone));
   ("flush", _nullable_dummy_function (returns (VInt 0)));
   ("fsync", _nullable_dummy_function (returns (VInt 0)));
   ("fsyncdir", _nullable_dummy_function (returns (VInt 0)));
   ("getattr", getattr_method);
   ("getxattr", _nullable_dummy_function (raises ENOTSUP));
   ("init", _nullable_dummy_function (returns VNone));
   ("ioctl", _nullable_dummy_function (raises ENOTTY));
   ("link", _nullable_dummy_function (raises EROFS));
   ("listxattr", _nullable_dummy_function (returns (VList [])));
   ("lock", _nullable_dummy_function (raises ENOSYS));
   ("mkdir", _nullable_dummy_function (raises EROFS));
   ("mknod", _nullable_dummy_function (raises EROFS));
   ("open", _nullable_dummy_function (returns (VInt 0)));
   ("opendir", _nullable_dummy_function (returns (VInt 0)));
   ("read", _nullable_dummy_function (raises EIO));
   ("readdir", _nullable_dummy_function (returns (VList [VStr "."; VStr ".."])));
   ("readlink", _nullable_dummy_function (raises errno.ENOENT));
   ("release", _nullable_dummy_function (returns (VInt 0)));
   ("releasedir", _nullable_dummy_function (returns (VInt 0)));
   ("removexattr", _nullable_dummy_function (raises ENOTSUP));
   ("rename", _nullable_dummy_function (raises EROFS));
   ("rmdir", _nullable_dummy_function (raises EROFS));
   ("setxattr", _nullable_dummy_function (raises ENOTSUP));
   ("statfs", _nullable_dummy_function (returns (VDict [])));
   ("symlink", _nullable_dummy_function (raises EROFS));
   ("truncate", _nullable_dummy_function (raises EROFS));
   ("unlink", _nullable_dummy_function (raises EROFS));
   ("utimens", _nullable_dummy_function (returns (VInt 0)));
   ("write", _nullable_dummy_function (raises EROFS));
   ("poll", _nullable_dummy_function (raises ENOSYS));
   ("write_buf", _nullable_dummy_function (raises ENOSYS));
   ("read_buf", _nullable_dummy_function (raises ENOSYS));
   ("flock", _nullable_dummy_function (raises ENOSYS));
   ("fallocate", _nullable_dummy_function (raises ENOSYS))]%string.

(** An operations object made of a list of methods; [overrides] come
    first, as the methods of a subclass do. *)
Definition subclass (overrides : list (string * method)) (use_ns : bool)
  : Operations :=
  {| attr := fun name =>
       match find (fun kv => String.eqb (fst kv) name) (overrides ++ methods) with
       | Some kv => Some (snd kv)
       | None => None
       end;
     ops_use_ns := use_ns |}.

(** [Operations()] *)
Definition default : Operations := subclass [] false.

End Operations_class.

(** The codec ['latin-1']: every byte is one character. *)
Definition latin_1 : codec :=
  {| decode := fun b => Some (string_of_list_byte b);
     encode := fun s => Some (list_byte_of_string s) |}.

(** The codec ['ascii']: bytes and characters below 128 only. *)
Definition is_ascii (b : list Byte.byte) : bool :=
  forallb (fun x => (Byte.to_N x <? 128)%N) b.

Definition ascii_codec : codec :=
  {| decode := fun b => if is_ascii b then Some (string_of_list_byte b) else None;
     encode := fun s =>
       if is_ascii (list_byte_of_string s) then Some (list_byte_of_string s)
       else None |}.

(** An implementation method outside the base class, for the examples. *)
Definition implemented (run : list pyval -> result pyval) : method :=
  {| libfuse_ignore := false; run := run |}.

(** The result and the final state of running a callback from an empty call
    log. *)
Definition run_callback {S} (m : M S pyval) (mem : S) : result pyval * world S :=
  m (mk_world [] mem).

(** ** Objects for the examples *)

(** An adapter over the default implementation, in the nanosecond
    representation or not. *)
Definition adapter (ops : Operations) (raw : bool) : FUSE :=
  FUSE_new ops raw latin_1.

(** A read-only implementation: [chmod] raises [FuseOSError(EROFS)]. *)
Definition readonly_ops : Operations :=
  Operations_class.subclass
    [("chmod", implemented (Operations_class.raises Operations_class.EROFS))]%string
    true.


Definition a_path : list Byte.byte := list_byte_of_string "/f".

Definition chmod_func (ops : Operations) : func unit :=
  mk_func "chmod" (chmod (adapter ops false) a_path 420).

(** An implementation that defines [truncate] and nothing else beyond the
    base class. *)
Definition truncating_ops : Operations :=
  Operations_class.subclass
    [("truncate", implemented (Operations_class.returns VNone))]%string true.

Definition a_file_info : fuse_file_info :=
  {| flags := 2; fh_old := 0; writepage := 0; direct_io := 0; keep_cache := 1;
     flush_bit := 0; nonseekable := 0; flock_release := 0; padding := 0;
     fh := 7; lock_owner := 0 |}.

(** An implementation with two extended attributes. *)
Definition xattr_ops : Operations :=
  Operations_class.subclass
    [("getxattr",
      implemented (Operations_class.returns (VBytes (list_byte_of_string "abc"))));
     ("listxattr",
      implemented (Operations_class.returns (VList [VStr "user.a"; VStr "user.b"])))]%string
    true.

Definition a_name : list Byte.byte := list_byte_of_string "user.a".

Definition four_bytes : list Byte.byte :=
  [Byte.xff; Byte.xff; Byte.xff; Byte.xff].

(** An implementation whose [write] claims to have written 150 bytes and
    whose [read] returns 150 bytes, whatever was asked. *)
Definition greedy_ops : Operations :=
  Operations_class.subclass
    [("write", implemented (Operations_class.returns (VInt 150)));
     ("read",
      implemented (Operations_class.returns (VBytes (repeat Byte.x61 150))))]%string
    true.

Definition hundred_bytes : list Byte.byte := repeat Byte.x00 100.

(** An implementation of the directory operations: a directory of five
    entries. *)
Definition dir_ops : Operations :=
  Operations_class.subclass
    [("readdir",
      implemented (Operations_class.returns
        (VList [VStr "."; VStr ".."; VStr "a"; VStr "b"; VStr "c"])));
     ("releasedir", implemented (Operations_class.returns (VInt 0)))]%string
    true.

(** A filler that records what it is given and reports its buffer full
    once it holds [capacity] entries. *)
Definition recording_filler (capacity : nat)
  : filler_t (list (list Byte.byte * option c_stat * Z)) :=
  fun buf name st offset =>
    let buf' := buf ++ [(name, st, offset)] in
    (if (capacity <=? length buf')%nat then 1 else 0, buf').

Definition xattr_adapter : FUSE := adapter xattr_ops false.

Definition raw_dir_adapter : FUSE := adapter dir_ops true.

Definition greedy_adapter : FUSE := adapter greedy_ops false.



(** An implementation whose [readlink] gives the target ["abc"]. *)
Definition link_ops : Operations :=
  Operations_class.subclass
    [("readlink", implemented (Operations_class.returns (VStr "abc")))]%string true.

Definition link_adapter : FUSE := adapter link_ops false.

Definition zero_timespec : c_timespec := {| tv_sec := 0; tv_nsec := 0 |}.



(** An implementation whose [open], [create] and [opendir] hand out the
    handles 5, 6 and 9. *)
Definition opening_ops : Operations :=
  Operations_class.subclass
    [("open", implemented (Operations_class.returns (VInt 5)));
     ("create", implemented (Operations_class.returns (VInt 6)));
     ("opendir", implemented (Operations_class.returns (VInt 9)))]%string true.

Definition opening_adapter : FUSE := adapter opening_ops false.

(** An implementation whose [open] and [opendir] return nothing. *)
Definition forgetful_ops : Operations :=
  Operations_class.subclass
    [("open", implemented (Operations_class.returns VNone));
     ("opendir", implemented (Operations_class.returns VNone))]%string true.

Definition forgetful_adapter : FUSE := adapter forgetful_ops false.




(** An implementation whose [init] and [destroy] fail with [EIO]. *)
Definition failing_init_ops : Operations :=
  Operations_class.subclass
    [("init", implemented (Operations_class.raises Operations_class.EIO));
     ("destroy", implemented (Operations_class.raises Operations_class.EIO))]%string
    true.

Definition failing_init_adapter : FUSE := adapter failing_init_ops false.



(** The keyword arguments of a mount in the foreground, with two options. *)
Definition some_kwargs : list (string * optval) :=
  [("foreground", OBool true); ("allow_other", OBool true);
   ("ro", OBool false); ("max_read", OInt 4096)]%string.

(** An implementation whose [getxattr] answers with a text, not with
    bytes. *)
Definition text_xattr_ops : Operations :=
  Operations_class.subclass
    [("getxattr", implemented (Operations_class.returns (VStr "abc")))]%string true.

Definition text_xattr_adapter : FUSE := adapter text_xattr_ops false.

(** The times of a [utimens] request. *)
Definition some_times : c_utimbuf :=
  {| actime := {| tv_sec := 1700000000; tv_nsec := 5 |};
     modtime := {| tv_sec := - 1; tv_nsec := 999999999 |} |}.

Definition ns_adapter : FUSE := adapter readonly_ops false.

(** ** Vocabulary of the statements *)

(** The text a path argument decodes to, if it does. *)
Definition path_text (self : FUSE) (path : list Byte.byte) : option pyval :=
  option_map VStr (decode (encoding self) path).

(** The same for a path that may be NULL: [None] is passed on as it is. *)
Definition optional_path_text (self : FUSE) (path : option (list Byte.byte))
  : option pyval :=
  match path with
  | None => Some VNone
  | Some b => path_text self b
  end.

(** The handle of the raw-or-numeric choice: the whole record in raw mode,
    its [fh] field otherwise. *)
Definition chosen_handle (self : FUSE) (fi : fuse_file_info) : pyval :=
  if raw_fi self then VFileInfo fi else VInt (fh fi).

(** The calls a callback makes to the high-level implementation when run
    from an empty log. *)
Definition calls_made {S} (m : M S pyval) (mem : S) : list opcall :=
  calls (snd (run_callback m mem)).

(** The one call a callback makes once its path has decoded to [p]; no call
    when the path does not decode. *)
Definition one_call (p : option pyval) (op : string) (args : pyval -> list pyval)
  : list opcall :=
  match p with
  | Some v => [(op, args v)]
  | None => []
  end.







(** The values a ctypes integer of [bits] bits can hold. *)
Definition in_range (signed : bool) (bits v : Z) : Prop :=
  if signed then - 2 ^ (bits - 1) <= v < 2 ^ (bits - 1) else 0 <= v < 2 ^ bits.



(** A codec that encodes a text piece by piece and a NUL as one zero byte,
    as ['utf-8'], ['latin-1'] and ['ascii'] do. *)
Definition piecewise (c : codec) : Prop :=
  encode c EmptyString = Some [] /\
  encode c NUL = Some [Byte.x00] /\
  (forall a b x y, encode c a = Some x -> encode c b = Some y ->
     encode c (a ++ b)%string = Some (x ++ y)) /\
  (forall s, encode c s = Some [] -> s = EmptyString).



(** What [_normalize_fuse_options] yields for one item, if anything. *)
Definition yielded (key : string) (value : optval) : option string :=
  match isinstance_bool value with
  | Some true => Some key
  | Some false => None
  | None => Some (key ++ "=" ++ opt_str value)%string
  end.

(** Whether the keyword argument [key] is given with a true value. *)
Definition option_on (kwargs : list (string * optval)) (key : string) : bool :=
  match find (fun kv => String.eqb (fst kv) key) kwargs with
  | Some kv => opt_truthy (snd kv)
  | None => false
  end.

(** * Properties *)

(** ** The invocation envelope *)


Lemma wrapper_OSError {S} (f : func S) (s : session) (w w' : world S) (n : pyerrno) :
  __name__ f <> "init"%string ->
  body f w = (Raise (OSError n), w') ->
  _wrapper f s w =
    (match n with
     | ErrnoInt en => if 0 <? en then VInt (- en) else VInt (- errno.EINVAL)
     | ErrnoOther => VInt (- errno.EINVAL)
     end, s, w').
Proof.
  intros Hn Hb. unfold _wrapper. rewrite Hb.
  destruct (String.eqb_spec (__name__ f) "init") as [E | _]; [contradiction |].
  cbn. destruct n as [en |]; [destruct (0 <? en) |]; reflexivity.
Qed.

Lemma wrapper_Exception {S} (f : func S) (s : session) (w w' : world S) (e : pyexc) :
  __name__ f <> "init"%string ->
  body f w = (Raise e, w') ->
  isinstance_OSError e = None ->
  isinstance_Exception e = true ->
  _wrapper f s w = (VInt (- errno.EINVAL), s, w').
Proof.
  intros Hn Hb Ho He. unfold _wrapper. rewrite Hb.
  destruct (String.eqb_spec (__name__ f) "init") as [E | _]; [contradiction |].
  rewrite Ho, He. reflexivity.
Qed.


(** C1: for a dispatched operation other than [init] that raises [e]: an
    [OSError] whose [errno] is an integer [en > 0] makes the envelope return
    exactly [-en]; an [OSError] whose [errno] is an integer [en <= 0], or is
    not an integer, makes it return [-EINVAL]; any other exception deriving
    from [Exception] also makes it return [-EINVAL]. In all these cases the
    session attributes are untouched and the value returned is a negative
    integer, never 0. *)
Theorem wrapper_error_codes {S} (f : func S) (s : session) (w w' : world S)
    (e : pyexc) :
  __name__ f <> "init"%string ->
  body f w = (Raise e, w') ->
  isinstance_Exception e = true ->
  (forall en, e = OSError (ErrnoInt en) -> 0 < en ->
     _wrapper f s w = (VInt (- en), s, w')) /\
  (forall en, e = OSError (ErrnoInt en) -> en <= 0 ->
     _wrapper f s w = (VInt (- errno.EINVAL), s, w')) /\
  (e = OSError ErrnoOther ->
     _wrapper f s w = (VInt (- errno.EINVAL), s, w')) /\
  (isinstance_OSError e = None ->
     _wrapper f s w = (VInt (- errno.EINVAL), s, w')) /\
  (exists n, 0 < n /\ _wrapper f s w = (VInt (- n), s, w')).
Proof.
  intros Hn Hb He. repeat split.
  - intros en -> Hpos. rewrite (wrapper_OSError f s w w' _ Hn Hb).
    destruct (Z.ltb_spec 0 en); [reflexivity | lia].
  - intros en -> Hle. rewrite (wrapper_OSError f s w w' _ Hn Hb).
    destruct (Z.ltb_spec 0 en); [lia | reflexivity].
  - intros ->. rewrite (wrapper_OSError f s w w' _ Hn Hb). reflexivity.
  - intros Ho. apply (wrapper_Exception f s w w' e Hn Hb Ho He).
  - destruct (isinstance_OSError e) as [n |] eqn:Ho.
    + destruct e; try discriminate. injection Ho as ->.
      rewrite (wrapper_OSError f s w w' _ Hn Hb).
      destruct n as [en |].
      * destruct (Z.ltb_spec 0 en).
        -- exists en. split; [assumption | reflexivity].
        -- exists errno.EINVAL. split; [reflexivity | reflexivity].
      * exists errno.EINVAL. split; reflexivity.
    + exists errno.EINVAL. split; [reflexivity |].
      apply (wrapper_Exception f s w w' e Hn Hb Ho He).
Qed.

Lemma wrapper_error_codes_witness :
  _wrapper (chmod_func readonly_ops) session0 (mk_world [] tt)
  = (VInt (- 30), session0,
     mk_world [("chmod"%string, [VStr "/f"; VInt 420])] tt).
Proof.
  refine (proj1 (wrapper_error_codes (chmod_func readonly_ops) session0
                   (mk_world [] tt) _ (OSError (ErrnoInt 30)) _ _ _) 30 eq_refl _).
  - discriminate.
  - reflexivity.
  - reflexivity.
  - reflexivity.
Defined.







(** ** The callback table *)

Lemma install_other (ops : Operations) (tbl : gmap string slot)
    (ent : string * prototype) (name : string) :
  fst ent <> name -> install ops tbl ent !! name = tbl !! name.
Proof.
  destruct ent as [n p]. cbn. intros Hne.
  destruct (attr ops (check_name n)) as [val |]; [| reflexivity].
  destruct (libfuse_ignore val); [reflexivity |].
  destruct (hasattr_argtypes p); apply lookup_insert_ne; exact Hne.
Qed.

Lemma fold_install_other (ops : Operations) (l : list (string * prototype))
    (tbl : gmap string slot) (name : string) :
  ~ In name (map fst l) ->
  fold_left (install ops) l tbl !! name = tbl !! name.
Proof.
  revert tbl. induction l as [| ent rest IH]; intros tbl Hnot; cbn.
  - reflexivity.
  - rewrite IH.
    + apply install_other. intros E. apply Hnot. left. exact E.
    + intros Hin. apply Hnot. right. exact Hin.
Qed.

(** The slot of an entry after the loop, when no other entry has its
    name. *)
Lemma fold_install_at (ops : Operations) (l : list (string * prototype))
    (tbl : gmap string slot) (name : string) (p : prototype) :
  List.NoDup (map fst l) ->
  In (name, p) l ->
  fold_left (install ops) l tbl !! name = install ops tbl (name, p) !! name.
Proof.
  revert tbl. induction l as [| ent rest IH]; intros tbl Hnd Hin; cbn.
  - destruct Hin.
  - inversion Hnd as [| x xs Hnotin Hnd' E]; subst.
    destruct Hin as [-> | Hin].
    + apply fold_install_other. exact Hnotin.
    + rewrite (IH _ Hnd' Hin).
      assert (Hne : fst ent <> name).
      { intros E. apply Hnotin. rewrite E.
        change name with (fst (name, p)). apply in_map. exact Hin. }
      destruct ent as [n q]. cbn in Hne. cbn.
      destruct (attr ops (check_name name)) as [val |].
      * destruct (libfuse_ignore val).
        -- apply (install_other ops tbl (n, q) name Hne).
        -- destruct (hasattr_argtypes p);
             rewrite !lookup_insert_eq; reflexivity.
      * apply (install_other ops tbl (n, q) name Hne).
Qed.

Lemma fields_NoDup (minor : Z) :
  List.NoDup (map fst (_fuse_operations_fields minor)).
Proof.
  unfold _fuse_operations_fields.
  destruct (3 <=? minor), (5 <=? minor), (6 <=? minor), (8 <=? minor),
    (9 <=? minor);
    apply NoDup_ListNoDup;
    match goal with
    | |- NoDup ?l => apply (bool_decide_unpack (NoDup l)); vm_compute; reflexivity
    end.
Qed.

(** Unfolding a callback down to the calls of the implementation. *)
Ltac run_callback_tac :=
  unfold calls_made, run_callback, one_call, optional_path_text, path_text,
    chosen_handle, bind, contents, ret, raise, lift, get_native, put_native,
    call_operations, _decode_optional_path, decode_path, store_fh, encode_str;
  cbn;
  repeat match goal with
         | |- context [decode ?c ?b] => destruct (decode c b); cbn
         | |- context [raw_fi ?s] => destruct (raw_fi s); cbn
         | |- context [Operations__call__ ?o ?n ?a] =>
             destruct (Operations__call__ o n a) as [[] |]; cbn
         end;
  try reflexivity.

Section CallsMade.

Variable plat : platform.
Variable self : FUSE.

Lemma ftruncate_calls {S} (path : option bytes) (length : Z)
    (fi : fuse_file_info) (mem : S) :
  calls_made (ftruncate self path length (Ptr fi)) mem
  = one_call (optional_path_text self path) "truncate"
      (fun p => [p; VInt length; chosen_handle self fi]).
Proof. unfold ftruncate. destruct path; run_callback_tac. Qed.


Lemma set_st_attrs_M_calls (attrs : pyval) (ns : bool) (w : world c_stat) :
  calls (snd (set_st_attrs_M plat attrs ns w)) = calls w.
Proof.
  unfold set_st_attrs_M. destruct attrs; try reflexivity.
  destruct (set_st_attrs plat (native w) d ns). reflexivity.
Qed.

Lemma fgetattr_calls (path : option bytes) (fip : option (pointer fuse_file_info))
    (mem : c_stat) :
  calls_made (fgetattr plat self path fip) mem
  = one_call (optional_path_text self path) "getattr"
      (fun p => [p; match fip with
                    | Some (Ptr fi) => chosen_handle self fi
                    | Some NULL => VPointer 0
                    | None => VNone
                    end]).
Proof.
  unfold fgetattr, calls_made, run_callback, one_call, optional_path_text,
    path_text, chosen_handle, bind, put_native, ret, _decode_optional_path,
    decode_path, raise, call_operations.
  cbn.
  assert (Hfh : forall w : world c_stat,
    (match fip with
     | Some (Ptr fi) => fun w0 : world c_stat =>
         (Ok (if raw_fi self then VFileInfo fi else VInt (fh fi)), w0)
     | Some NULL => fun w0 => (Ok (VPointer 0), w0)
     | None => fun w0 => (Ok VNone, w0)
     end) w
    = (Ok (match fip with
           | Some (Ptr fi) => if raw_fi self then VFileInfo fi else VInt (fh fi)
           | Some NULL => VPointer 0
           | None => VNone
           end), w)).
  { intros w. destruct fip as [[| fi] |]; reflexivity. }
  rewrite Hfh. clear Hfh.
  destruct path as [b |]; cbn.
  - destruct (decode (encoding self) b); cbn; [| reflexivity].
    destruct (Operations__call__ _ _ _) as [v |]; cbn; [| reflexivity].
    match goal with
    | |- context [set_st_attrs_M plat v ?ns ?w] =>
        pose proof (set_st_attrs_M_calls v ns w) as Hc;
        destruct (set_st_attrs_M plat v ns w) as [[u |] w1]; cbn in *; exact Hc
    end.
  - destruct (Operations__call__ _ _ _) as [v |]; cbn; [| reflexivity].
    match goal with
    | |- context [set_st_attrs_M plat v ?ns ?w] =>
        pose proof (set_st_attrs_M_calls v ns w) as Hc;
        destruct (set_st_attrs_M plat v ns w) as [[u |] w1]; cbn in *; exact Hc
    end.
Qed.


End CallsMade.

Lemma install_at (ops : Operations) (tbl : gmap string slot) (name : string)
    (p : prototype) :
  install ops tbl (name, p) !! name
  = if defines ops (check_name name)
    then match attr ops (check_name name) with
         | Some val => Some (if hasattr_argtypes p then Callback name else Raw val)
         | None => None
         end
    else tbl !! name.
Proof.
  unfold install, defines.
  destruct (attr ops (check_name name)) as [val |]; [| reflexivity].
  destruct (libfuse_ignore val); cbn; [reflexivity |].
  destruct (hasattr_argtypes p); apply lookup_insert_eq.
Qed.


Example default_table :
  build_fuse_ops Operations_class.default 9
  = {[ "getattr"%string := Callback "getattr"; "fgetattr"%string := Callback "fgetattr" ]}.
Proof. vm_compute. reflexivity. Qed.


(** ** Buffer negotiation *)







(** ** The calls of the handle-bearing callbacks *)

Section HandleCalls.

Variable plat : platform.
Variable self : FUSE.
Variable fi : fuse_file_info.

Lemma read_calls (path : option bytes) (size offset : Z) (mem : bytes) :
  calls_made (read self path size offset (Ptr fi)) mem
  = one_call (optional_path_text self path) "read"
      (fun p => [p; VInt size; VInt offset; chosen_handle self fi]).
Proof.
  unfold read. destruct path; run_callback_tac;
    repeat match goal with
           | |- context [if ?c then _ else _] => destruct c; cbn
           | |- context [match ?l with [] => _ | _ :: _ => _ end] => destruct l; cbn
           end; reflexivity.
Qed.

Lemma write_calls (path : option bytes) (buf : bytes) (size offset : Z) :
  calls_made (write self path buf size offset (Ptr fi)) tt
  = one_call (optional_path_text self path) "write"
      (fun p => [p; VBytes (string_at buf size); VInt offset; chosen_handle self fi]).
Proof. unfold write. destruct path; run_callback_tac. Qed.

Lemma flush_calls {S} (path : option bytes) (mem : S) :
  calls_made (flush self path (Ptr fi)) mem
  = one_call (optional_path_text self path) "flush"
      (fun p => [p; chosen_handle self fi]).
Proof. unfold flush. destruct path; run_callback_tac. Qed.

Lemma release_calls {S} (path : option bytes) (mem : S) :
  calls_made (release self path (Ptr fi)) mem
  = one_call (optional_path_text self path) "release"
      (fun p => [p; chosen_handle self fi]).
Proof. unfold release. destruct path; run_callback_tac. Qed.

Lemma fsync_calls {S} (path : option bytes) (datasync : Z) (mem : S) :
  calls_made (fsync self path datasync (Ptr fi)) mem
  = one_call (optional_path_text self path) "fsync"
      (fun p => [p; VInt datasync; chosen_handle self fi]).
Proof. unfold fsync. destruct path; run_callback_tac. Qed.

Lemma lock_calls {S} (path : option bytes) (cmd : Z) (lock_p : pyval) (mem : S) :
  calls_made (lock self path (Ptr fi) cmd lock_p) mem
  = one_call (optional_path_text self path) "lock"
      (fun p => [p; chosen_handle self fi; VInt cmd; lock_p]).
Proof. unfold lock. destruct path; run_callback_tac. Qed.

Lemma ioctl_calls {S} (path : bytes) (cmd : Z) (arg : pyval) (flags_ : Z)
    (data : pyval) (mem : S) :
  calls_made (ioctl self path cmd arg (Ptr fi) flags_ data) mem
  = one_call (path_text self path) "ioctl"
      (fun p => [p; VInt cmd; arg; chosen_handle self fi; VInt flags_; data]).
Proof. unfold ioctl. run_callback_tac. Qed.

Lemma poll_calls {S} (path : bytes) (ph reventsp : pyval) (mem : S) :
  calls_made (poll self path (Ptr fi) ph reventsp) mem
  = one_call (path_text self path) "poll"
      (fun p => [p; chosen_handle self fi; ph; reventsp]).
Proof. unfold poll. run_callback_tac. Qed.

Lemma write_buf_calls {S} (path : bytes) (buf : pyval) (offset : Z) (mem : S) :
  calls_made (write_buf self path buf offset (Ptr fi)) mem
  = one_call (path_text self path) "write_buf"
      (fun p => [p; buf; VInt offset; chosen_handle self fi]).
Proof. unfold write_buf. run_callback_tac. Qed.

Lemma read_buf_calls {S} (path : bytes) (bufpp : pyval) (size offset : Z) (mem : S) :
  calls_made (read_buf self path bufpp size offset (Ptr fi)) mem
  = one_call (path_text self path) "read_buf"
      (fun p => [p; bufpp; VInt size; VInt offset; chosen_handle self fi]).
Proof. unfold read_buf. run_callback_tac. Qed.

Lemma flock_calls {S} (path : bytes) (op : Z) (mem : S) :
  calls_made (flock self path (Ptr fi) op) mem
  = one_call (path_text self path) "flock"
      (fun p => [p; chosen_handle self fi; VInt op]).
Proof. unfold flock. run_callback_tac. Qed.

Lemma fallocate_calls {S} (path : bytes) (mode offset size : Z) (mem : S) :
  calls_made (fallocate self path mode offset size (Ptr fi)) mem
  = one_call (path_text self path) "fallocate"
      (fun p => [p; VInt mode; VInt offset; VInt size; chosen_handle self fi]).
Proof. unfold fallocate. run_callback_tac. Qed.

Lemma open_calls (path : bytes) :
  calls_made (open self path) (Ptr fi)
  = one_call (path_text self path) "open"
      (fun p => [p; if raw_fi self then VFileInfo fi else VInt (flags fi)]).
Proof. unfold open. run_callback_tac. Qed.

Lemma create_calls (path : bytes) (mode : Z) :
  calls_made (create self path mode) (Ptr fi)
  = one_call (path_text self path) "create"
      (fun p => [p; VInt mode; if raw_fi self then VFileInfo fi else VInt (flags fi)]).
Proof. unfold create. run_callback_tac. Qed.

Lemma opendir_calls (path : bytes) :
  calls_made (opendir self path) (Ptr fi)
  = one_call (path_text self path) "opendir" (fun p => [p]).
Proof. unfold opendir. run_callback_tac. Qed.

Lemma releasedir_calls {S} (path : option bytes) (mem : S) :
  calls_made (releasedir self path (Ptr fi)) mem
  = one_call (optional_path_text self path) "releasedir"
      (fun p => [p; VInt (fh fi)]).
Proof. unfold releasedir. destruct path; run_callback_tac. Qed.

Lemma fsyncdir_calls {S} (path : option bytes) (datasync : Z) (mem : S) :
  calls_made (fsyncdir self path datasync (Ptr fi)) mem
  = one_call (optional_path_text self path) "fsyncdir"
      (fun p => [p; VInt datasync; VInt (fh fi)]).
Proof. unfold fsyncdir. destruct path; run_callback_tac. Qed.

End HandleCalls.

(** ** [readdir] *)

Section Readdir.

Variable plat : platform.
Variable self : FUSE.
Context {F : Type}.
Variable filler : filler_t F.

Lemma readdir_loop_calls (items : list pyval) (w : world F) :
  calls (snd (readdir_loop plat self filler items w)) = calls w.
Proof.
  revert w. induction items as [| item rest IH]; intros w; cbn.
  - reflexivity.
  - unfold bind, lift.
    destruct (filler_args plat self item) as [[[name_b st] off] | e]; cbn;
      [| reflexivity].
    match goal with
    | |- context [filler ?a ?n ?t ?o] => destruct (filler a n t o) as [r buf']
    end.
    destruct (r =? 0); cbn; [| reflexivity].
    rewrite IH. reflexivity.
Qed.

Lemma readdir_calls (path : option bytes) (fi : fuse_file_info) (buf : F) :
  calls_made (readdir plat self path filler (Ptr fi)) buf
  = one_call (optional_path_text self path) "readdir"
      (fun p => [p; VInt (fh fi)]).
Proof.
  unfold readdir, calls_made, run_callback, one_call, optional_path_text,
    path_text, bind, contents, ret, raise, lift, call_operations,
    _decode_optional_path, decode_path.
  destruct path as [b |]; cbn.
  - destruct (decode (encoding self) b); cbn; [| reflexivity].
    destruct (Operations__call__ _ _ _) as [r |]; cbn; [| reflexivity].
    destruct (py_iter r) as [items |]; cbn; [| reflexivity].
    match goal with
    | |- context [readdir_loop plat self filler items ?w] =>
        pose proof (readdir_loop_calls items w) as Hc;
        destruct (readdir_loop plat self filler items w) as [[u |] w1];
        cbn in *; exact Hc
    end.
  - destruct (Operations__call__ _ _ _) as [r |]; cbn; [| reflexivity].
    destruct (py_iter r) as [items |]; cbn; [| reflexivity].
    match goal with
    | |- context [readdir_loop plat self filler items ?w] =>
        pose proof (readdir_loop_calls items w) as Hc;
        destruct (readdir_loop plat self filler items w) as [[u |] w1];
        cbn in *; exact Hc
    end.
Qed.

End Readdir.

(** ** The handle model *)

(** The claim C6 as stated fails: in raw mode the directory callbacks still
    pass the numeric [fh] field, not the record. *)
Lemma raw_mode_directory_counterexample :
  raw_fi raw_dir_adapter = true /\
  calls_made (releasedir raw_dir_adapter None (Ptr a_file_info)) tt
    = [("releasedir"%string, [VNone; VInt 7])] /\
  calls_made (releasedir raw_dir_adapter None (Ptr a_file_info)) tt
    <> [("releasedir"%string, [VNone; VFileInfo a_file_info])] /\
  calls_made (readdir linux_x86_64 raw_dir_adapter None (recording_filler 9) (Ptr a_file_info)) []
    = [("readdir"%string, [VNone; VInt 7])].
Proof.
  split; [reflexivity |]. split; [reflexivity |].
  split; [discriminate | reflexivity].
Qed.

(** C6 (amended): the raw-or-numeric choice fixed by [raw_fi] is applied by
    every callback that refers to an open file: [read], [write], [flush],
    [release], [fsync], [ftruncate], [fgetattr] (given a handle), [lock],
    [ioctl], [poll], [write_buf], [read_buf], [flock] and [fallocate] pass
    the whole record in raw mode and its [fh] field otherwise; [open] and
    [create] pass the record in raw mode and its [flags] otherwise. The
    directory callbacks do not look at [raw_fi]: [readdir], [releasedir] and
    [fsyncdir] always pass the [fh] field, and [opendir] passes no handle. *)
Theorem handle_choice_by_family (plat : platform) (self : FUSE)
    (fi : fuse_file_info) (path : option bytes) (path' : bytes)
    (size offset length datasync cmd flags_ mode op : Z)
    (buf mem : bytes) (st : c_stat) (lock_p arg data ph reventsp bufv : pyval)
    (F : Type) (filler : filler_t F) (dirbuf : F) :
  let h := if raw_fi self then VFileInfo fi else VInt (fh fi) in
  let p := optional_path_text self path in
  let p' := path_text self path' in
  (calls_made (read self path size offset (Ptr fi)) mem
     = one_call p "read" (fun v => [v; VInt size; VInt offset; h]) /\
   calls_made (write self path buf size offset (Ptr fi)) tt
     = one_call p "write" (fun v => [v; VBytes (string_at buf size); VInt offset; h]) /\
   calls_made (flush self path (Ptr fi)) tt
     = one_call p "flush" (fun v => [v; h]) /\
   calls_made (release self path (Ptr fi)) tt
     = one_call p "release" (fun v => [v; h]) /\
   calls_made (fsync self path datasync (Ptr fi)) tt
     = one_call p "fsync" (fun v => [v; VInt datasync; h]) /\
   calls_made (ftruncate self path length (Ptr fi)) tt
     = one_call p "truncate" (fun v => [v; VInt length; h]) /\
   calls_made (fgetattr plat self path (Some (Ptr fi))) st
     = one_call p "getattr" (fun v => [v; h]) /\
   calls_made (lock self path (Ptr fi) cmd lock_p) tt
     = one_call p "lock" (fun v => [v; h; VInt cmd; lock_p]) /\
   calls_made (ioctl self path' cmd arg (Ptr fi) flags_ data) tt
     = one_call p' "ioctl" (fun v => [v; VInt cmd; arg; h; VInt flags_; data]) /\
   calls_made (poll self path' (Ptr fi) ph reventsp) tt
     = one_call p' "poll" (fun v => [v; h; ph; reventsp]) /\
   calls_made (write_buf self path' bufv offset (Ptr fi)) tt
     = one_call p' "write_buf" (fun v => [v; bufv; VInt offset; h]) /\
   calls_made (read_buf self path' bufv size offset (Ptr fi)) tt
     = one_call p' "read_buf" (fun v => [v; bufv; VInt size; VInt offset; h]) /\
   calls_made (flock self path' (Ptr fi) op) tt
     = one_call p' "flock" (fun v => [v; h; VInt op]) /\
   calls_made (fallocate self path' mode offset size (Ptr fi)) tt
     = one_call p' "fallocate"
         (fun v => [v; VInt mode; VInt offset; VInt size; h])) /\
  (calls_made (open self path') (Ptr fi)
     = one_call p' "open"
         (fun v => [v; if raw_fi self then VFileInfo fi else VInt (flags fi)]) /\
   calls_made (create self path' mode) (Ptr fi)
     = one_call p' "create"
         (fun v => [v; VInt mode;
                    if raw_fi self then VFileInfo fi else VInt (flags fi)])) /\
  (calls_made (opendir self path') (Ptr fi)
     = one_call p' "opendir" (fun v => [v]) /\
   calls_made (readdir plat self path filler (Ptr fi)) dirbuf
     = one_call p "readdir" (fun v => [v; VInt (fh fi)]) /\
   calls_made (releasedir self path (Ptr fi)) tt
     = one_call p "releasedir" (fun v => [v; VInt (fh fi)]) /\
   calls_made (fsyncdir self path datasync (Ptr fi)) tt
     = one_call p "fsyncdir" (fun v => [v; VInt datasync; VInt (fh fi)])).
Proof.
  cbv zeta.
  repeat match goal with |- _ /\ _ => split end.
  - apply read_calls.
  - apply write_calls.
  - apply flush_calls.
  - apply release_calls.
  - apply fsync_calls.
  - apply ftruncate_calls.
  - apply (fgetattr_calls plat self path (Some (Ptr fi))).
  - apply lock_calls.
  - apply ioctl_calls.
  - apply poll_calls.
  - apply write_buf_calls.
  - apply read_buf_calls.
  - apply flock_calls.
  - apply fallocate_calls.
  - apply open_calls.
  - apply create_calls.
  - apply opendir_calls.
  - apply readdir_calls.
  - apply releasedir_calls.
  - apply fsyncdir_calls.
Qed.

(** ** [write] and [read] *)





(** [read], the sibling of [write], does check: a result longer than the
    requested size raises [AssertionError], which derives from [Exception];
    the envelope answers [-EINVAL] and records no critical exception. *)
Example read_overlong :
  _wrapper (mk_func "read"
              (read greedy_adapter None 100 0 (Ptr a_file_info)))
    session0 (mk_world [] hundred_bytes)
  = (VInt (- 22), session0,
     mk_world [("read"%string, [VNone; VInt 100; VInt 0; VInt 7])] hundred_bytes).
Proof. reflexivity. Qed.

Section ReaddirDelivery.

Variable plat : platform.
Variable self : FUSE.





End ReaddirDelivery.




(** ** [chown] *)

Lemma chown_calls (self : FUSE) (path : bytes) (uid gid : Z) :
  calls_made (chown self path uid gid) tt
  = one_call (path_text self path) "chown"
      (fun p => [p; VInt (if c_uid_t (uid + 1) =? 0 then -1 else uid);
                 VInt (if c_gid_t (gid + 1) =? 0 then -1 else gid)]).
Proof. unfold chown. run_callback_tac. Qed.

Lemma wraps_to_zero (x : Z) :
  0 <= x < 2 ^ 32 -> (c_unsigned 32 (x + 1) =? 0) = (x =? 2 ^ 32 - 1).
Proof.
  intros Hx. unfold c_unsigned.
  destruct (Z.eqb_spec x (2 ^ 32 - 1)) as [-> | Hne].
  - reflexivity.
  - apply Z.eqb_neq. rewrite Z.mod_small; lia.
Qed.

(** C10: [chown] passes [-1] for a uid (respectively gid) that is the
    unsigned representation of [-1] in the native 32-bit type, that is whose
    successor wraps to 0, and passes every other value unchanged. For the
    values the native type can hold, the one replaced is [2 ^ 32 - 1]. *)
Theorem chown_minus_one (self : FUSE) (path : bytes) (uid gid : Z) :
  let uid' := if c_uid_t (uid + 1) =? 0 then -1 else uid in
  let gid' := if c_gid_t (gid + 1) =? 0 then -1 else gid in
  calls_made (chown self path uid gid) tt
    = one_call (path_text self path) "chown" (fun p => [p; VInt uid'; VInt gid']) /\
  (c_uid_t (uid + 1) = 0 -> uid' = -1) /\
  (c_uid_t (uid + 1) <> 0 -> uid' = uid) /\
  (c_gid_t (gid + 1) = 0 -> gid' = -1) /\
  (c_gid_t (gid + 1) <> 0 -> gid' = gid) /\
  (0 <= uid < 2 ^ 32 -> uid' = if uid =? 2 ^ 32 - 1 then -1 else uid) /\
  (0 <= gid < 2 ^ 32 -> gid' = if gid =? 2 ^ 32 - 1 then -1 else gid).
Proof.
  cbv zeta. split; [apply chown_calls |].
  repeat split.
  - intros H. rewrite H. reflexivity.
  - intros H. destruct (Z.eqb_spec (c_uid_t (uid + 1)) 0); [contradiction | reflexivity].
  - intros H. rewrite H. reflexivity.
  - intros H. destruct (Z.eqb_spec (c_gid_t (gid + 1)) 0); [contradiction | reflexivity].
  - intros H. unfold c_uid_t. rewrite (wraps_to_zero uid H). reflexivity.
  - intros H. unfold c_gid_t. rewrite (wraps_to_zero gid H). reflexivity.
Qed.

Lemma chown_minus_one_witness :
  calls_made (chown (adapter Operations_class.default false) a_path 4294967295 1000) tt
  = [("chown"%string, [VStr "/f"; VInt (-1); VInt 1000])].
Proof.
  pose proof (chown_minus_one (adapter Operations_class.default false) a_path
                4294967295 1000) as (H1 & H2 & _ & _ & H5 & _).
  rewrite H1. cbv zeta in *. rewrite (H2 eq_refl).
  rewrite (H5 ltac:(discriminate)). reflexivity.
Defined.

(** ** [readlink] *)

Lemma readlink_outcome (self : FUSE) (path : bytes) (bufsize : Z)
    (p s : string) (b buf : bytes) :
  decode (encoding self) path = Some p ->
  Operations__call__ (operations self) "readlink" [VStr p] = Ok (VStr s) ->
  encode (encoding self) s = Some b ->
  run_callback (readlink self path bufsize) buf
  = (Ok (VInt 0),
     mk_world [("readlink"%string, [VStr p])]
       (memmove buf (slice_to b (bufsize - 1) ++ [Byte.x00])
          (len (slice_to b (bufsize - 1) ++ [Byte.x00])))).
Proof.
  intros Hp Hop Hb.
  unfold run_callback, readlink, bind, decode_path, call_operations, ret,
    get_native, put_native, encode_str, lift, encode_text, create_string_buffer.
  rewrite Hp. cbn. rewrite Hop. cbn. rewrite Hb. cbn. reflexivity.
Qed.

(** X26: with a capacity of at least one byte [readlink] truncates: it
    writes the first [bufsize - 1] bytes of the encoded target (all of it
    when it is shorter) and a NUL after them, [bufsize] bytes at most, leaves
    the rest of the buffer as it was, and returns 0. *)
Lemma readlink_truncates (self : FUSE) (path : bytes) (bufsize : Z)
    (p s : string) (b buf : bytes) :
  decode (encoding self) path = Some p ->
  Operations__call__ (operations self) "readlink" [VStr p] = Ok (VStr s) ->
  encode (encoding self) s = Some b ->
  1 <= bufsize ->
  let written := firstn (Z.to_nat (bufsize - 1)) b ++ [Byte.x00] in
  run_callback (readlink self path bufsize) buf
    = (Ok (VInt 0),
       mk_world [("readlink"%string, [VStr p])]
         (written ++ skipn (length written) buf)) /\
  len written <= bufsize /\
  len written = Z.min (len b) (bufsize - 1) + 1.
Proof.
  intros Hp Hop Hb Hsize written.
  rewrite (readlink_outcome self path bufsize p s b buf Hp Hop Hb).
  assert (Hslice : slice_to b (bufsize - 1) = firstn (Z.to_nat (bufsize - 1)) b).
  { unfold slice_to. destruct (Z.ltb_spec (bufsize - 1) 0); [lia | reflexivity]. }
  rewrite Hslice. fold written.
  assert (Hlen : len written = Z.min (len b) (bufsize - 1) + 1).
  { unfold written, len. rewrite length_app, length_firstn. cbn. lia. }
  split; [| split; [lia | exact Hlen]].
  unfold memmove, len. rewrite Nat2Z.id, firstn_all. reflexivity.
Qed.


(** ** Time fields *)

Lemma c_signed_small (bits x : Z) :
  0 < bits ->
  - 2 ^ (bits - 1) <= x < 2 ^ (bits - 1) ->
  c_signed bits x = x.
Proof.
  intros Hb Hx. unfold c_signed.
  assert (H2 : 2 ^ bits = 2 * 2 ^ (bits - 1)).
  { replace bits with (Z.succ (bits - 1)) at 1 by lia.
    rewrite Z.pow_succ_r; lia. }
  rewrite Z.mod_small; lia.
Qed.

Lemma nsec_fits (bits v : Z) :
  32 <= bits ->
  - 2 ^ (bits - 1) <= v mod 10 ^ 9 < 2 ^ (bits - 1).
Proof.
  intros Hb.
  assert (Hm : 0 <= v mod 10 ^ 9 < 10 ^ 9) by (apply Z.mod_pos_bound; lia).
  assert (Hp : 2 ^ 31 <= 2 ^ (bits - 1)) by (apply Z.pow_le_mono_r; lia).
  assert (H31 : 10 ^ 9 < 2 ^ 31) by reflexivity.
  lia.
Qed.

Lemma set_timespec_ns (plat : platform) (ts : c_timespec) (v : Z) :
  0 < tv_sec_bits plat ->
  32 <= tv_nsec_bits plat ->
  - 2 ^ (tv_sec_bits plat - 1) <= v / 10 ^ 9 < 2 ^ (tv_sec_bits plat - 1) ->
  set_timespec plat ts (VInt v) true
  = (Ok tt, {| tv_sec := v / 10 ^ 9; tv_nsec := v mod 10 ^ 9 |}).
Proof.
  intros Hs Hn Hv. unfold set_timespec. cbn [py_int].
  rewrite (c_signed_small _ _ Hs Hv).
  rewrite (c_signed_small (tv_nsec_bits plat) (v mod 10 ^ 9)) by
    (try lia; apply nsec_fits; assumption).
  reflexivity.
Qed.




(** The floating-point representation, on two values: half a second past
    1.7e9 seconds is read back as it was written; a time stamp beyond the
    range of a 64-bit [tv_sec] is not. *)
Example float_roundtrip_half :
  time_of_timespec
    (snd (set_timespec linux_x86_64 zero_timespec (VFloat 1700000000.5%float) false))
    false
  = VFloat 1700000000.5%float.
Proof. vm_compute. reflexivity. Qed.

Example float_roundtrip_wraps :
  time_of_timespec
    (snd (set_timespec linux_x86_64 zero_timespec (VFloat 0x1p+64%float) false))
    false
  <> VFloat 0x1p+64%float.
Proof. vm_compute. discriminate. Qed.

(** On a platform whose [c_long] has 32 bits the same happens from the year
    2038 on: [2 ^ 31] seconds are read back as [- 2 ^ 31] seconds. *)
Example ns_roundtrip_i686_2038 :
  time_of_timespec
    (snd (set_timespec linux_i686 zero_timespec (VInt (2 ^ 31 * 10 ^ 9)) true)) true
  = VInt (- 2 ^ 31 * 10 ^ 9).
Proof. vm_compute. reflexivity. Qed.

(** ** The default implementation, end to end *)

(** [getattr("/")] on the default implementation answers 0 and fills in a
    directory mode and a link count of 2. *)
Example getattr_root :
  let '(v, s, w) :=
    _wrapper (mk_func "getattr"
                (getattr linux_x86_64 (adapter Operations_class.default false)
                   (Some (list_byte_of_string "/"))))
      session0 (mk_world [] (c_stat_new linux_x86_64)) in
  v = VInt 0 /\ s = session0 /\
  native w !! "st_mode"%string = Some (FInt false 32 16877) /\
  native w !! "st_nlink"%string = Some (FInt false 64 2).
Proof. vm_compute. repeat split; reflexivity. Qed.

(** [getattr("/missing")] answers [-ENOENT]. *)
Example getattr_missing :
  fst (_wrapper (mk_func "getattr"
                   (getattr linux_x86_64 (adapter Operations_class.default false)
                      (Some (list_byte_of_string "/missing"))))
         session0 (mk_world [] (c_stat_new linux_x86_64)))
  = (VInt (- errno.ENOENT), session0).
Proof. vm_compute. reflexivity. Qed.

(** * Further properties of the adapter *)

(** ** The library version and the layout of the table *)

Ltac div_lia := Z.to_euclidean_division_equations; lia.

(** X1: the checks at import time accept exactly the libraries whose
    [fuse_version()] is 26 to 29 or 206 to 299: [get_fuse_version] and the
    two tests after it then give the major version 2 and a minor version of
    at least 6 (the last digit of a two-digit version, the last two digits
    of a three-digit one); for every other number the import raises. *)
Theorem fuse_version_supported (version major minor : Z) :
  fuse_version_major_minor version = Ok (major, minor) <->
  (26 <= version <= 29 /\ major = 2 /\ minor = version - 20) \/
  (206 <= version <= 299 /\ major = 2 /\ minor = version - 200).
Proof.
  unfold fuse_version_major_minor, get_fuse_version, and_then.
  destruct (Z.ltb_spec version 100) as [H1 | H1];
    [| destruct (Z.ltb_spec version 1000) as [H2 | H2]].
  - destruct (Z.eqb_spec (version / 10) 2) as [E | E]; cbn.
    + destruct (Z.ltb_spec (version mod 10) 6) as [L | L]; cbn.
      * split; [discriminate |]. intros [(? & ? & ?) | (? & ? & ?)]; div_lia.
      * split.
        -- intros H. injection H as <- <-. left. div_lia.
        -- intros [(? & -> & ->) | (? & ? & ?)]; [| div_lia].
           f_equal. f_equal; div_lia.
    + split; [discriminate |]. intros [(? & ? & ?) | (? & ? & ?)]; div_lia.
  - destruct (Z.eqb_spec (version / 100) 2) as [E | E]; cbn.
    + destruct (Z.ltb_spec (version mod 100) 6) as [L | L]; cbn.
      * split; [discriminate |]. intros [(? & ? & ?) | (? & ? & ?)]; div_lia.
      * split.
        -- intros H. injection H as <- <-. right. div_lia.
        -- intros [(? & ? & ?) | (? & -> & ->)]; [div_lia |].
           f_equal. f_equal; div_lia.
    + split; [discriminate |]. intros [(? & ? & ?) | (? & ? & ?)]; div_lia.
  - split; [discriminate |]. intros [(? & ? & ?) | (? & ? & ?)]; lia.
Qed.

Lemma fields_prefix (minor1 minor2 : Z) :
  minor1 <= minor2 ->
  _fuse_operations_fields minor1 `prefix_of` _fuse_operations_fields minor2.
Proof.
  intros Hle. unfold _fuse_operations_fields.
  destruct (Z.leb_spec 3 minor1), (Z.leb_spec 5 minor1), (Z.leb_spec 6 minor1),
    (Z.leb_spec 8 minor1), (Z.leb_spec 9 minor1); try lia;
  destruct (Z.leb_spec 3 minor2), (Z.leb_spec 5 minor2), (Z.leb_spec 6 minor2),
    (Z.leb_spec 8 minor2), (Z.leb_spec 9 minor2); try lia;
  cbn [app]; repeat apply prefix_cons; apply prefix_nil.
Qed.

(** X2: the native table only grows at its end: the fields built for one
    minor version are a prefix of the fields built for any later one, so a
    slot keeps its position from one libfuse 2.x to the next. *)
Theorem operations_fields_grow (minor1 minor2 : Z) :
  minor1 <= minor2 ->
  _fuse_operations_fields minor1 `prefix_of` _fuse_operations_fields minor2 /\
  (length (_fuse_operations_fields minor1)
   <= length (_fuse_operations_fields minor2))%nat.
Proof.
  intros Hle. pose proof (fields_prefix minor1 minor2 Hle) as Hp.
  split; [exact Hp |]. apply prefix_length. exact Hp.
Qed.

Lemma operations_fields_grow_witness :
  _fuse_operations_fields 6 `prefix_of` _fuse_operations_fields 9 /\
  (length (_fuse_operations_fields 6) <= length (_fuse_operations_fields 9))%nat.
Proof. apply (operations_fields_grow 6 9). discriminate. Defined.

Lemma supported_minor (version major minor : Z) :
  fuse_version_major_minor version = Ok (major, minor) -> major = 2 /\ 6 <= minor.
Proof.
  unfold fuse_version_major_minor, and_then.
  destruct (get_fuse_version version) as [[a b] |]; [| discriminate].
  destruct (Z.eqb_spec a 2) as [E | E]; cbn; [| discriminate].
  destruct (Z.ltb_spec b 6) as [L | L]; cbn; [discriminate |].
  intros H. injection H as <- <-. split; [exact E | exact L].
Qed.

(** X3: for every library version the import accepts, the fields of
    libfuse 2.6 are a prefix of the table: the slots from [opendir] to
    [bmap], which the source adds under the tests [fuse_version_minor >= 3],
    [>= 5] and [>= 6], are always there, each as a function pointer. *)
Theorem supported_version_fields (version major minor : Z) :
  fuse_version_major_minor version = Ok (major, minor) ->
  _fuse_operations_fields 6 `prefix_of` _fuse_operations_fields minor /\
  (forall name,
     In name ["opendir"; "readdir"; "releasedir"; "fsyncdir"; "init"; "destroy";
              "access"; "create"; "ftruncate"; "fgetattr"; "lock"; "utimens";
              "bmap"]%string ->
     In (name, CFUNCTYPE) (_fuse_operations_fields minor)).
Proof.
  intros Hv. destruct (supported_minor version major minor Hv) as [_ H6].
  pose proof (fields_prefix 6 minor H6) as Hp.
  split; [exact Hp |]. intros name Hin.
  destruct Hp as [k Hk]. rewrite Hk. apply in_or_app. left.
  cbn in Hin. cbn.
  repeat (destruct Hin as [<- | Hin]; [tauto |]). destruct Hin.
Qed.

Lemma supported_version_fields_witness :
  _fuse_operations_fields 6 `prefix_of` _fuse_operations_fields 9 /\
  (forall name,
     In name ["opendir"; "readdir"; "releasedir"; "fsyncdir"; "init"; "destroy";
              "access"; "create"; "ftruncate"; "fgetattr"; "lock"; "utimens";
              "bmap"]%string ->
     In (name, CFUNCTYPE) (_fuse_operations_fields 9)).
Proof. apply (supported_version_fields 29 2 9). reflexivity. Defined.

(** What a slot of the table holds, when it holds something. *)
Lemma build_fuse_ops_lookup (ops : Operations) (minor : Z) (name : string) (s : slot) :
  build_fuse_ops ops minor !! name = Some s ->
  exists p val,
    In (name, p) (_fuse_operations_fields minor) /\
    attr ops (check_name name) = Some val /\
    libfuse_ignore val = false /\
    s = if hasattr_argtypes p then Callback name else Raw val.
Proof.
  unfold build_fuse_ops. intros Hs.
  destruct (in_dec string_dec name (map fst (_fuse_operations_fields minor)))
    as [Hin | Hnot].
  - apply in_map_iff in Hin. destruct Hin as [[n p] [Hn Hin]]. cbn in Hn. subst n.
    rewrite (fold_install_at ops _ ∅ name p (fields_NoDup minor) Hin) in Hs.
    rewrite install_at in Hs. unfold defines in Hs.
    destruct (attr ops (check_name name)) as [val |] eqn:Hattr.
    + destruct (libfuse_ignore val) eqn:Hig; cbn in Hs.
      * rewrite lookup_empty in Hs. discriminate.
      * injection Hs as <-. exists p, val. repeat split; assumption.
    + rewrite lookup_empty in Hs. discriminate.
  - rewrite (fold_install_other ops _ ∅ name Hnot), lookup_empty in Hs. discriminate.
Qed.

(** X4: whatever slot [__init__] fills, the operation its callback asks
    for is there: the attribute looked up ([name], or [truncate] and
    [getattr] for [ftruncate] and [fgetattr]) exists and is not marked
    [libfuse_ignore], the slot holds the callback of that name (or the
    attribute itself for a field that is no function pointer), and
    [Operations.__call__] on that operation runs the method, whatever the
    arguments: it does not take its [FuseOSError(EFAULT)] branch. *)
Theorem installed_callback_finds_operation (ops : Operations) (minor : Z)
    (name : string) (s : slot) :
  build_fuse_ops ops minor !! name = Some s ->
  exists val,
    attr ops (check_name name) = Some val /\
    libfuse_ignore val = false /\
    (s = Callback name \/ s = Raw val) /\
    forall args, Operations__call__ ops (check_name name) args = run val args.
Proof.
  intros Hs.
  destruct (build_fuse_ops_lookup ops minor name s Hs) as (p & val & _ & Ha & Hi & Hslot).
  exists val. split; [exact Ha |]. split; [exact Hi |]. split.
  - destruct (hasattr_argtypes p); [left | right]; exact Hslot.
  - intros args. unfold Operations__call__. rewrite Ha. reflexivity.
Qed.

Lemma installed_callback_finds_operation_witness :
  exists val,
    attr truncating_ops (check_name "ftruncate") = Some val /\
    libfuse_ignore val = false /\
    (Callback "ftruncate" = Callback "ftruncate" \/ Callback "ftruncate" = Raw val) /\
    forall args,
      Operations__call__ truncating_ops (check_name "ftruncate") args = run val args.
Proof.
  apply (installed_callback_finds_operation truncating_ops 9 "ftruncate"
           (Callback "ftruncate")).
  vm_compute. reflexivity.
Defined.

Lemma find_app_l {A} (f : A -> bool) (l1 l2 : list A) :
  find f l1 = None -> find f (l1 ++ l2) = find f l2.
Proof.
  induction l1 as [| x l1 IH]; cbn; [reflexivity |].
  destruct (f x); [discriminate | exact IH].
Qed.

Lemma find_key_none {A} (l : list (string * A)) (name : string) :
  ~ In name (map fst l) ->
  find (fun kv => String.eqb (fst kv) name) l = None.
Proof.
  induction l as [| [k v] l IH]; cbn; [reflexivity |]. intros Hnot.
  destruct (String.eqb_spec k name) as [-> | _]; [exfalso; apply Hnot; left; reflexivity |].
  apply IH. intros Hin. apply Hnot. right. exact Hin.
Qed.

Lemma methods_ignored :
  Forall (fun kv : string * method =>
            fst kv = "getattr"%string \/ libfuse_ignore (snd kv) = true)
    Operations_class.methods.
Proof.
  unfold Operations_class.methods.
  repeat (apply List.Forall_cons;
          [first [right; reflexivity | left; reflexivity] |]).
  apply List.Forall_nil.
Qed.

(** X5: a method of the base class [Operations] that a subclass does not
    override is not set up for libfuse: when the overrides do not give the
    attribute looked up for a slot, and that attribute is not [getattr] (the
    one method of the base class without the [libfuse_ignore] mark), the
    slot stays empty, for every minor version. *)
Theorem unoverridden_not_installed (overrides : list (string * method))
    (use_ns : bool) (minor : Z) (name : string) :
  ~ In (check_name name) (map fst overrides) ->
  check_name name <> "getattr"%string ->
  build_fuse_ops (Operations_class.subclass overrides use_ns) minor !! name = None.
Proof.
  intros Hnot Hne.
  destruct (build_fuse_ops (Operations_class.subclass overrides use_ns) minor !! name)
    as [s |] eqn:Hs; [| reflexivity]. exfalso.
  destruct (build_fuse_ops_lookup _ minor name s Hs) as (p & val & _ & Ha & Hi & _).
  cbn in Ha. rewrite (find_app_l _ _ _ (find_key_none overrides _ Hnot)) in Ha.
  destruct (find _ Operations_class.methods) as [kv |] eqn:Hf; [| discriminate].
  injection Ha as <-. apply find_some in Hf. destruct Hf as [Hin Heq].
  apply String.eqb_eq in Heq.
  pose proof (proj1 (List.Forall_forall _ _) methods_ignored kv Hin) as [Hg | Hg].
  - apply Hne. rewrite <- Heq. exact Hg.
  - rewrite Hg in Hi. discriminate.
Qed.

Lemma unoverridden_not_installed_witness :
  build_fuse_ops truncating_ops 9 !! "chmod"%string = None.
Proof.
  apply (unoverridden_not_installed
           [("truncate"%string, implemented (Operations_class.returns VNone))]
           true 9 "chmod").
  - cbn. intros [H | []]. discriminate.
  - cbn. discriminate.
Defined.

(** ** Paths that do not decode *)





(** ** File handles *)

Lemma c_unsigned_small (bits x : Z) :
  0 <= x < 2 ^ bits -> c_unsigned bits x = x.
Proof. intros H. unfold c_unsigned. apply Z.mod_small. exact H. Qed.

(** X7: with [raw_fi] off, the handle [h] that the implementation returns
    from [open] or [create] is stored in the [fh] field of the record of the
    request, reduced modulo [2 ^ 64] (so unchanged when it fits 64 unsigned
    bits), the other fields of the record stay as they were and the callback
    returns 0; [read] and [release] on that record then hand the stored
    handle to the implementation. *)
Theorem open_handle_roundtrip (self : FUSE) (path : bytes) (mode : Z)
    (fi : fuse_file_info) (p : string) (h : Z) (path' : option bytes)
    (size offset : Z) (buf : bytes) :
  raw_fi self = false ->
  decode (encoding self) path = Some p ->
  let fi' := set_fh fi h in
  (Operations__call__ (operations self) "open" [VStr p; VInt (flags fi)] = Ok (VInt h) ->
   run_callback (open self path) (Ptr fi)
   = (Ok (VInt 0), mk_world [("open"%string, [VStr p; VInt (flags fi)])] (Ptr fi'))) /\
  (Operations__call__ (operations self) "create" [VStr p; VInt mode; VInt (flags fi)]
     = Ok (VInt h) ->
   run_callback (create self path mode) (Ptr fi)
   = (Ok (VInt 0),
      mk_world [("create"%string, [VStr p; VInt mode; VInt (flags fi)])] (Ptr fi'))) /\
  fh fi' = h mod 2 ^ 64 /\
  (0 <= h < 2 ^ 64 -> fh fi' = h) /\
  (flags fi' = flags fi /\ direct_io fi' = direct_io fi /\
   keep_cache fi' = keep_cache fi /\ lock_owner fi' = lock_owner fi) /\
  calls_made (read self path' size offset (Ptr fi')) buf
    = one_call (optional_path_text self path') "read"
        (fun v => [v; VInt size; VInt offset; VInt (h mod 2 ^ 64)]) /\
  calls_made (release self path' (Ptr fi')) tt
    = one_call (optional_path_text self path') "release"
        (fun v => [v; VInt (h mod 2 ^ 64)]).
Proof.
  intros Hraw Hp fi'.
  split; [| split; [| split; [| split; [| split; [| split]]]]].
  - intros Hop. unfold run_callback, open, bind, get_native, contents, ret,
      decode_path, call_operations, store_fh, put_native.
    cbn. rewrite Hraw, Hp. cbn. rewrite Hop. reflexivity.
  - intros Hop. unfold run_callback, create, bind, get_native, contents, ret,
      decode_path, call_operations, store_fh, put_native.
    cbn. rewrite Hp. cbn. rewrite Hraw. cbn. rewrite Hop. reflexivity.
  - reflexivity.
  - intros Hh. cbn. apply c_unsigned_small. exact Hh.
  - repeat split; reflexivity.
  - rewrite read_calls. unfold chosen_handle. rewrite Hraw. reflexivity.
  - rewrite release_calls. unfold chosen_handle. rewrite Hraw. reflexivity.
Qed.

Lemma open_handle_roundtrip_witness :
  run_callback (open opening_adapter a_path) (Ptr a_file_info)
  = (Ok (VInt 0), mk_world [("open"%string, [VStr "/f"; VInt 2])]
                    (Ptr (set_fh a_file_info 5)))
  /\ calls_made (release opening_adapter None (Ptr (set_fh a_file_info 5))) tt
     = [("release"%string, [VNone; VInt 5])].
Proof.
  pose proof (open_handle_roundtrip opening_adapter a_path 0 a_file_info "/f" 5
                None 0 0 [] eq_refl eq_refl) as (H1 & _ & _ & _ & _ & _ & H7).
  split; [exact (H1 eq_refl) | exact H7].
Defined.

(** X8: the handle [h] that the implementation returns from [opendir] is
    stored in the [fh] field of the record, whatever [raw_fi] is, reduced
    modulo [2 ^ 64], and the callback returns 0; [readdir], [fsyncdir] and
    [releasedir] on that record then hand the stored number to the
    implementation. *)
Theorem opendir_handle_roundtrip (plat : platform) (self : FUSE) (path : bytes)
    (fi : fuse_file_info) (p : string) (h datasync : Z) (path' : option bytes)
    (F : Type) (filler : filler_t F) (dirbuf : F) :
  decode (encoding self) path = Some p ->
  Operations__call__ (operations self) "opendir" [VStr p] = Ok (VInt h) ->
  let fi' := set_fh fi h in
  run_callback (opendir self path) (Ptr fi)
    = (Ok (VInt 0), mk_world [("opendir"%string, [VStr p])] (Ptr fi')) /\
  (0 <= h < 2 ^ 64 -> fh fi' = h) /\
  calls_made (readdir plat self path' filler (Ptr fi')) dirbuf
    = one_call (optional_path_text self path') "readdir"
        (fun v => [v; VInt (h mod 2 ^ 64)]) /\
  calls_made (fsyncdir self path' datasync (Ptr fi')) tt
    = one_call (optional_path_text self path') "fsyncdir"
        (fun v => [v; VInt datasync; VInt (h mod 2 ^ 64)]) /\
  calls_made (releasedir self path' (Ptr fi')) tt
    = one_call (optional_path_text self path') "releasedir"
        (fun v => [v; VInt (h mod 2 ^ 64)]).
Proof.
  intros Hp Hop fi'.
  split; [| split; [| split; [| split]]].
  - unfold run_callback, opendir, bind, get_native, contents, ret,
      decode_path, call_operations, store_fh, put_native.
    rewrite Hp. cbn. rewrite Hop. reflexivity.
  - intros Hh. cbn. apply c_unsigned_small. exact Hh.
  - rewrite readdir_calls. reflexivity.
  - rewrite fsyncdir_calls. reflexivity.
  - rewrite releasedir_calls. reflexivity.
Qed.

Lemma opendir_handle_roundtrip_witness :
  run_callback (opendir opening_adapter a_path) (Ptr a_file_info)
  = (Ok (VInt 0), mk_world [("opendir"%string, [VStr "/f"])]
                    (Ptr (set_fh a_file_info 9)))
  /\ calls_made (releasedir opening_adapter None (Ptr (set_fh a_file_info 9))) tt
     = [("releasedir"%string, [VNone; VInt 9])].
Proof.
  pose proof (opendir_handle_roundtrip linux_x86_64 opening_adapter a_path
                a_file_info "/f" 9 0 None _ (recording_filler 1) []
                eq_refl eq_refl) as (H1 & _ & _ & _ & H5).
  split; [exact H1 | exact H5].
Defined.

(** X9: when [open] or [create] (with [raw_fi] off) or [opendir] get from
    the implementation something that is not an integer ([None], say, from a
    method that forgot its [return]), storing it in the [fh] field raises
    [TypeError]: the envelope answers [-EINVAL], the record of the request
    is unchanged and the session is left alone. *)
Theorem handle_must_be_integer (self : FUSE) (path : bytes) (mode : Z)
    (fi : fuse_file_info) (p : string) (r : pyval) (s : session) :
  decode (encoding self) path = Some p ->
  (forall z, r <> VInt z) ->
  (raw_fi self = false ->
   Operations__call__ (operations self) "open" [VStr p; VInt (flags fi)] = Ok r ->
   _wrapper (mk_func "open" (open self path)) s (mk_world [] (Ptr fi))
   = (VInt (- errno.EINVAL), s,
      mk_world [("open"%string, [VStr p; VInt (flags fi)])] (Ptr fi))) /\
  (raw_fi self = false ->
   Operations__call__ (operations self) "create" [VStr p; VInt mode; VInt (flags fi)]
     = Ok r ->
   _wrapper (mk_func "create" (create self path mode)) s (mk_world [] (Ptr fi))
   = (VInt (- errno.EINVAL), s,
      mk_world [("create"%string, [VStr p; VInt mode; VInt (flags fi)])] (Ptr fi))) /\
  (Operations__call__ (operations self) "opendir" [VStr p] = Ok r ->
   _wrapper (mk_func "opendir" (opendir self path)) s (mk_world [] (Ptr fi))
   = (VInt (- errno.EINVAL), s,
      mk_world [("opendir"%string, [VStr p])] (Ptr fi))).
Proof.
  intros Hp Hr.
  assert (Hstore : forall S (w : world S),
            @store_fh S fi r w = (Raise TypeError, w)).
  { intros S w. destruct r; try reflexivity. exfalso. apply (Hr z). reflexivity. }
  split; [| split].
  - intros Hraw Hop.
    apply wrapper_Exception with (e := TypeError);
      [discriminate | | reflexivity | reflexivity].
    cbn. unfold open, bind, get_native, contents, ret, decode_path, call_operations.
    cbn. rewrite Hraw, Hp. cbn. rewrite Hop. rewrite Hstore. reflexivity.
  - intros Hraw Hop.
    apply wrapper_Exception with (e := TypeError);
      [discriminate | | reflexivity | reflexivity].
    cbn. unfold create, bind, get_native, contents, ret, decode_path, call_operations.
    cbn. rewrite Hp. cbn. rewrite Hraw. cbn. rewrite Hop. rewrite Hstore. reflexivity.
  - intros Hop.
    apply wrapper_Exception with (e := TypeError);
      [discriminate | | reflexivity | reflexivity].
    cbn. unfold opendir, bind, get_native, contents, ret, decode_path, call_operations.
    rewrite Hp. cbn. rewrite Hop. cbn. rewrite Hstore. reflexivity.
Qed.

Lemma handle_must_be_integer_witness :
  _wrapper (mk_func "open" (open forgetful_adapter a_path)) session0
    (mk_world [] (Ptr a_file_info))
  = (VInt (- 22), session0,
     mk_world [("open"%string, [VStr "/f"; VInt 2])] (Ptr a_file_info)).
Proof.
  refine (proj1 (handle_must_be_integer forgetful_adapter a_path 0 a_file_info "/f"
                   VNone session0 eq_refl _) eq_refl eq_refl).
  intros z. discriminate.
Defined.

(** ** [read] *)




(** ** The struct marshaller *)





(** *** Values in range *)









(** *** What is not supplied *)






(** ** [statfs] *)




(** ** The name list of [listxattr] *)

Lemma join_encoded (self : FUSE) (l : list string) (bs : list bytes) :
  piecewise (encoding self) ->
  Forall2 (fun s b => encode (encoding self) s = Some b) l bs ->
  l <> [] ->
  exists joined jb,
    str_join NUL (map VStr l) = Ok joined /\
    encode (encoding self) joined = Some jb /\
    jb ++ [Byte.x00] = List.concat (map (fun b => b ++ [Byte.x00]) bs) /\
    (jb = [] -> l = [EmptyString]).
Proof.
  intros (He & Hnul & Happ & Hne) Hall.
  induction Hall as [| s b l bs Hs Hall IH]; intros Hnil; [contradiction |].
  destruct l as [| s' l'].
  - inversion Hall; subst. exists s, b. cbn.
    split; [reflexivity |]. split; [exact Hs |]. split.
    + rewrite app_nil_r. reflexivity.
    + intros ->. rewrite (Hne s Hs). reflexivity.
  - destruct (IH ltac:(discriminate)) as (joined & jb & Hj & Hjb & Hcat & _).
    exists (s ++ NUL ++ joined)%string, (b ++ [Byte.x00] ++ jb).
    split; [| split; [| split]].
    + cbn [map str_join] in Hj |- *. rewrite Hj. reflexivity.
    + apply Happ; [exact Hs |]. apply Happ; [exact Hnul | exact Hjb].
    + cbn [map List.concat]. rewrite <- Hcat. rewrite <- !app_assoc. reflexivity.
    + intros Hb. destruct b; discriminate.
Qed.

(** X15: the byte string [listxattr] makes of a list of names, with a
    codec that encodes text piece by piece: every name encoded and followed
    by one zero byte, in order (nothing for the empty list). The one
    exception is the list that holds just the empty name, for which the
    result is empty, with no zero byte. *)
Theorem listxattr_names_format (self : FUSE) (l : list string) (bs : list bytes) :
  piecewise (encoding self) ->
  Forall2 (fun s b => encode (encoding self) s = Some b) l bs ->
  l <> [EmptyString] ->
  listxattr_ret self (VList (map VStr l))
    = Ok (List.concat (map (fun b => b ++ [Byte.x00]) bs)) /\
  listxattr_ret self (VList [VStr EmptyString]) = Ok [].
Proof.
  intros Hpw Hall Hne.
  pose proof Hpw as (He & Hnul & Happ & Hnon).
  split.
  - destruct l as [| s l'].
    + inversion Hall; subst. unfold listxattr_ret, and_then, encode_text. cbn.
      rewrite He. reflexivity.
    + destruct (join_encoded self (s :: l') bs Hpw Hall ltac:(discriminate))
        as (joined & jb & Hj & Hjb & Hcat & Hempty).
      unfold listxattr_ret. cbn [truthy map py_iter and_then].
      cbn [map] in Hj. rewrite Hj. cbn [and_then]. unfold encode_text. rewrite Hjb. cbn [and_then].
      destruct jb as [| x jb'].
      * exfalso. apply Hne. apply Hempty. reflexivity.
      * assert (Hpos : (0 <? len (x :: jb')) = true).
        { apply Z.ltb_lt. unfold len. cbn. lia. }
        rewrite Hpos, Hnul. cbn [and_then]. rewrite Hcat. reflexivity.
  - unfold listxattr_ret, and_then, encode_text. cbn. rewrite He. reflexivity.
Qed.

Lemma list_byte_of_string_app (a b : string) :
  list_byte_of_string (a ++ b) = list_byte_of_string a ++ list_byte_of_string b.
Proof.
  unfold list_byte_of_string.
  induction a as [| c a IH]; [reflexivity |].
  change (String c a ++ b)%string with (String c (a ++ b)%string).
  cbn [list_ascii_of_string map app]. f_equal. exact IH.
Qed.

Lemma latin_1_piecewise : piecewise latin_1.
Proof.
  split; [reflexivity |]. split; [reflexivity |]. split.
  - intros a b x y Ha Hb. cbn in *. injection Ha as <-. injection Hb as <-.
    rewrite list_byte_of_string_app. reflexivity.
  - intros s Hs. cbn in Hs. injection Hs as Hs. destruct s; [reflexivity | discriminate].
Qed.

Lemma listxattr_names_format_witness :
  listxattr_ret xattr_adapter (VList [VStr "user.a"; VStr "user.b"])
  = Ok (list_byte_of_string "user.a" ++ [Byte.x00]
        ++ list_byte_of_string "user.b" ++ [Byte.x00]).
Proof.
  refine (proj1 (listxattr_names_format xattr_adapter ["user.a"; "user.b"]%string
                   [list_byte_of_string "user.a"; list_byte_of_string "user.b"]
                   latin_1_piecewise _ _)).
  - repeat constructor.
  - discriminate.
Defined.

(** ** The session *)









(** X18: [init] and [destroy] call the operation with the path ['/'].
    A [FuseOSError(en)] with [en > 0] raised by the [init] operation is
    critical: the envelope returns [-EFAULT], records the exception and
    requests the exit. The same exception raised by [destroy] is an ordinary
    failure: the envelope returns [-en] and leaves the session alone. *)
Theorem init_failure_is_critical (self : FUSE) (en : Z) (s : session)
    (w : world unit) :
  0 < en ->
  (Operations__call__ (operations self) "init" [VStr "/"] = Raise (FuseOSError en) ->
   _wrapper (mk_func "init" (init self)) s w
   = (VInt (- errno.EFAULT),
      {| critical_exception := Some (FuseOSError en); exit_requested := true |},
      mk_world (calls w ++ [("init"%string, [VStr "/"])]) (native w))) /\
  (Operations__call__ (operations self) "destroy" [VStr "/"] = Raise (FuseOSError en) ->
   _wrapper (mk_func "destroy" (destroy self)) s w
   = (VInt (- en), s,
      mk_world (calls w ++ [("destroy"%string, [VStr "/"])]) (native w))).
Proof.
  intros Hpos. split; intros Hop.
  - unfold _wrapper, init, call_operations. cbn. rewrite Hop. reflexivity.
  - unfold _wrapper, destroy, call_operations. cbn. rewrite Hop. cbn.
    destruct (Z.ltb_spec 0 en); [reflexivity | lia].
Qed.

Lemma init_failure_is_critical_witness :
  _wrapper (mk_func "init" (init failing_init_adapter)) session0 (mk_world [] tt)
  = (VInt (- 14),
     {| critical_exception := Some (FuseOSError 5); exit_requested := true |},
     mk_world [("init"%string, [VStr "/"])] tt)
  /\ _wrapper (mk_func "destroy" (destroy failing_init_adapter)) session0
       (mk_world [] tt)
     = (VInt (- 5), session0, mk_world [("destroy"%string, [VStr "/"])] tt).
Proof.
  pose proof (init_failure_is_critical failing_init_adapter 5 session0
                (mk_world [] tt) eq_refl) as [H1 H2].
  split; [exact (H1 eq_refl) | exact (H2 eq_refl)].
Defined.

(** ** What the marshaller raises *)









(** ** A malformed directory entry *)




(** ** The arguments of the native main function *)

Lemma find_key_some {A} (l : list (string * A)) (name : string) (kv : string * A) :
  find (fun kv => String.eqb (fst kv) name) l = Some kv ->
  In name (map fst l).
Proof.
  intros H. apply find_some in H. destruct H as [Hin Heq].
  apply String.eqb_eq in Heq. rewrite <- Heq. apply in_map. exact Hin.
Qed.

Lemma find_filter_ne (d : list (string * optval)) (k key : string) :
  k <> key ->
  find (fun kv => String.eqb (fst kv) k)
    (List.filter (fun kv => negb (String.eqb (fst kv) key)) d)
  = find (fun kv => String.eqb (fst kv) k) d.
Proof.
  intros Hne. induction d as [| [k0 v0] d IH]; cbn; [reflexivity |].
  destruct (String.eqb_spec k0 key) as [-> | Hk]; cbn.
  - destruct (String.eqb_spec key k) as [E | _]; [congruence | exact IH].
  - destruct (String.eqb_spec k0 k); [reflexivity | exact IH].
Qed.

Lemma dict_pop_In (d : list (string * optval)) (key : string) (default : optval)
    (k : string) (v : optval) :
  In (k, v) (snd (dict_pop d key default)) <-> In (k, v) d /\ k <> key.
Proof.
  unfold dict_pop.
  destruct (find _ d) as [kv |] eqn:Hf; cbn [snd].
  - rewrite filter_In. cbn. split.
    + intros [Hin Hneq]. split; [exact Hin |].
      destruct (String.eqb_spec k key); [discriminate | assumption].
    + intros [Hin Hne]. split; [exact Hin |].
      destruct (String.eqb_spec k key); [contradiction | reflexivity].
  - split; [| tauto]. intros Hin. split; [exact Hin |]. intros ->.
    pose proof (find_none _ _ Hf _ Hin) as Hn. cbn in Hn.
    rewrite String.eqb_refl in Hn. discriminate.
Qed.

Lemma dict_pop_on (d : list (string * optval)) (key k : string) (default : optval) :
  k <> key -> option_on (snd (dict_pop d key default)) k = option_on d k.
Proof.
  intros Hne. unfold dict_pop, option_on.
  destruct (find (fun kv => String.eqb (fst kv) key) d); cbn [snd]; [| reflexivity].
  rewrite (find_filter_ne d k key Hne). reflexivity.
Qed.

Lemma dict_pop_truthy (d : list (string * optval)) (key : string) :
  opt_truthy (fst (dict_pop d key (OBool false))) = option_on d key.
Proof.
  unfold dict_pop, option_on.
  destruct (find (fun kv => String.eqb (fst kv) key) d); reflexivity.
Qed.

Lemma option_flags_In (options : list (string * string))
    (kwargs : list (string * optval)) (k : string) (v : optval) :
  In (k, v) (snd (option_flags options kwargs))
  <-> In (k, v) kwargs /\ ~ In k (map fst options).
Proof.
  revert kwargs. induction options as [| [arg flag] rest IH]; intros kwargs; cbn.
  - tauto.
  - pose proof (dict_pop_In kwargs arg (OBool false) k v) as Hpop.
    destruct (dict_pop kwargs arg (OBool false)) as [v0 kwargs'].
    pose proof (IH kwargs') as IH'.
    destruct (option_flags rest kwargs') as [flags kwargs'']. cbn [snd] in *.
    rewrite IH', Hpop. split.
    + intros [[Hin Hne] Hnot]. split; [exact Hin |].
      intros [E | E]; [apply Hne; symmetry; exact E | contradiction].
    + intros [Hin Hnot]. split; [split; [exact Hin |] |].
      * intros ->. apply Hnot. left. reflexivity.
      * intros E. apply Hnot. right. exact E.
Qed.

Lemma encode_args_length (encoding : codec) (args : list string)
    (argv : list (list Byte.byte)) :
  encode_args encoding args = Ok argv -> length argv = length args.
Proof.
  revert argv. induction args as [| a rest IH]; intros argv; cbn.
  - intros H. injection H as <-. reflexivity.
  - destruct (encode encoding a); [| discriminate]. unfold and_then.
    destruct (encode_args encoding rest) as [tl |]; [| discriminate].
    intros H. injection H as <-. cbn. rewrite (IH tl eq_refl). reflexivity.
Qed.

(** X21: the argument list [__init__] builds is [fuse], then [-f], [-d]
    and [-s] in this order, each present exactly when the keyword argument
    [foreground], [debug] or [nothreads] is given with a true value (the
    three pops do not disturb each other), then [-o], the option string and
    the mount point: between 4 and 7 arguments, and as many encoded entries
    in [argv] when every argument encodes. *)
Theorem mount_arguments (encoding : codec) (class_name mountpoint : string)
    (kwargs : list (string * optval)) :
  let opts :=
    _normalize_fuse_options
      (dict_setdefault (snd (option_flags OPTIONS kwargs)) "fsname"
         (OStr class_name)) in
  let args := FUSE_args class_name mountpoint kwargs in
  args
  = ["fuse"%string]
    ++ (if option_on kwargs "foreground" then ["-f"%string] else [])
    ++ (if option_on kwargs "debug" then ["-d"%string] else [])
    ++ (if option_on kwargs "nothreads" then ["-s"%string] else [])
    ++ ["-o"%string; String.concat "," opts; mountpoint] /\
  (4 <= length args <= 7)%nat /\
  (forall argv, FUSE_argv encoding class_name mountpoint kwargs = Ok argv ->
     length argv = length args).
Proof.
  intros opts args.
  assert (Hargs : args
    = ["fuse"%string]
      ++ (if option_on kwargs "foreground" then ["-f"%string] else [])
      ++ (if option_on kwargs "debug" then ["-d"%string] else [])
      ++ (if option_on kwargs "nothreads" then ["-s"%string] else [])
      ++ ["-o"%string; String.concat "," opts; mountpoint]).
  { subst args opts. unfold FUSE_args, OPTIONS. cbn [option_flags].
    pose proof (dict_pop_truthy kwargs "foreground") as H1.
    pose proof (dict_pop_on kwargs "foreground" "debug" (OBool false)
                  ltac:(discriminate)) as H2a.
    pose proof (dict_pop_on kwargs "foreground" "nothreads" (OBool false)
                  ltac:(discriminate)) as H3a.
    destruct (dict_pop kwargs "foreground" (OBool false)) as [v1 k1].
    cbn [fst snd] in *.
    pose proof (dict_pop_truthy k1 "debug") as H2.
    pose proof (dict_pop_on k1 "debug" "nothreads" (OBool false)
                  ltac:(discriminate)) as H3b.
    destruct (dict_pop k1 "debug" (OBool false)) as [v2 k2].
    cbn [fst snd] in *.
    pose proof (dict_pop_truthy k2 "nothreads") as H3.
    destruct (dict_pop k2 "nothreads" (OBool false)) as [v3 k3].
    cbn [fst snd] in *.
    rewrite H1, H2, H2a, H3, H3b, H3a.
    destruct (option_on kwargs "foreground"), (option_on kwargs "debug"),
      (option_on kwargs "nothreads"); reflexivity. }
  split; [exact Hargs |]. split.
  - rewrite Hargs.
    destruct (option_on kwargs "foreground"), (option_on kwargs "debug"),
      (option_on kwargs "nothreads"); cbn; lia.
  - intros argv Hv. apply (encode_args_length encoding _ _ Hv).
Qed.

(** The arguments of a mount in the foreground with two options. *)
Example mount_arguments_example :
  FUSE_args "Memory" "/mnt" some_kwargs
  = ["fuse"; "-f"; "-o"; "allow_other,max_read=4096,fsname=Memory"; "/mnt"]%string
  /\ FUSE_argv ascii_codec "Memory" "/mnt" some_kwargs
     = Ok (map list_byte_of_string
             ["fuse"; "-f"; "-o"; "allow_other,max_read=4096,fsname=Memory";
              "/mnt"]%string).
Proof. split; vm_compute; reflexivity. Qed.

Lemma normalize_In (d : list (string * optval)) (o : string) :
  In o (_normalize_fuse_options d)
  <-> exists k v, In (k, v) d /\ yielded k v = Some o.
Proof.
  induction d as [| [key value] rest IH]; cbn.
  - split; [intros [] | intros (k & v & [] & _)].
  - unfold yielded at 1.
    destruct (isinstance_bool value) as [[] |] eqn:Hb; cbn; rewrite ?IH; split.
    + intros [<- | (k & v & Hin & Hy)].
      * exists key, value. split; [left; reflexivity |]. unfold yielded.
        rewrite Hb. reflexivity.
      * exists k, v. split; [right; exact Hin | exact Hy].
    + intros (k & v & [Heq | Hin] & Hy).
      * injection Heq as <- <-. unfold yielded in Hy. rewrite Hb in Hy.
        injection Hy as <-. left. reflexivity.
      * right. exists k, v. split; assumption.
    + intros (k & v & Hin & Hy). exists k, v. split; [right; exact Hin | exact Hy].
    + intros (k & v & [Heq | Hin] & Hy).
      * injection Heq as <- <-. unfold yielded in Hy. rewrite Hb in Hy. discriminate.
      * exists k, v. split; assumption.
    + intros [<- | (k & v & Hin & Hy)].
      * exists key, value. split; [left; reflexivity |]. unfold yielded.
        rewrite Hb. reflexivity.
      * exists k, v. split; [right; exact Hin | exact Hy].
    + intros (k & v & [Heq | Hin] & Hy).
      * injection Heq as <- <-. unfold yielded in Hy. rewrite Hb in Hy.
        injection Hy as <-. left. reflexivity.
      * right. exists k, v. split; assumption.
Qed.

Lemma dict_setdefault_In (d : list (string * optval)) (key : string)
    (default : optval) (k : string) (v : optval) :
  In (k, v) (dict_setdefault d key default)
  <-> In (k, v) d \/ (k = key /\ v = default /\ ~ In key (map fst d)).
Proof.
  unfold dict_setdefault.
  destruct (find _ d) as [kv |] eqn:Hf.
  - split; [tauto |]. intros [H | (_ & _ & Hnot)]; [exact H |].
    exfalso. apply Hnot. apply (find_key_some d key kv Hf).
  - rewrite in_app_iff. cbn. split.
    + intros [H | [H | []]]; [left; exact H |]. injection H as <- <-.
      right. split; [reflexivity |]. split; [reflexivity |].
      intros Hin. apply in_map_iff in Hin. destruct Hin as [[k0 v0] [E Hin]].
      cbn in E. subst k0. pose proof (find_none _ _ Hf _ Hin) as Hn. cbn in Hn.
      rewrite String.eqb_refl in Hn. discriminate.
    + intros [H | (-> & -> & _)]; [left; exact H | right; left; reflexivity].
Qed.

(** X22: the options joined after [-o] are exactly what the keyword
    arguments other than [foreground], [debug] and [nothreads] yield, plus
    [fsname=<class name>] when no [fsname] is given: a key alone for the
    value [True], nothing for [False], and [key=value] for any other value.
    The three flag keys never reach the option string. *)
Theorem mount_options_content (class_name : string)
    (kwargs : list (string * optval)) (o : string) :
  In o (_normalize_fuse_options
          (dict_setdefault (snd (option_flags OPTIONS kwargs)) "fsname"
             (OStr class_name)))
  <-> exists k v,
        yielded k v = Some o /\
        ~ In k ["foreground"; "debug"; "nothreads"]%string /\
        (In (k, v) kwargs \/
         (k = "fsname"%string /\ v = OStr class_name /\
          ~ In "fsname"%string (map fst kwargs))).
Proof.
  rewrite normalize_In.
  assert (Hfs : In "fsname"%string (map fst (snd (option_flags OPTIONS kwargs)))
                <-> In "fsname"%string (map fst kwargs)).
  { rewrite !in_map_iff. split.
    - intros [[k v] [E Hin]]. apply option_flags_In in Hin.
      exists (k, v). split; [exact E | exact (proj1 Hin)].
    - intros [[k v] [E Hin]]. exists (k, v). split; [exact E |].
      apply option_flags_In. split; [exact Hin |]. cbn in E. subst k.
      cbn. intros [H | [H | [H | []]]]; discriminate. }
  split.
  - intros (k & v & Hin & Hy). exists k, v. split; [exact Hy |].
    apply dict_setdefault_In in Hin. destruct Hin as [Hin | (-> & -> & Hnot)].
    + apply option_flags_In in Hin. destruct Hin as [Hin Hno].
      split; [exact Hno | left; exact Hin].
    + split; [cbn; intros [H | [H | [H | []]]]; discriminate |].
      right. split; [reflexivity |]. split; [reflexivity |].
      intros Hin. apply Hnot. apply Hfs. exact Hin.
  - intros (k & v & Hy & Hno & Hsrc). exists k, v. split; [| exact Hy].
    apply dict_setdefault_In. destruct Hsrc as [Hin | (-> & -> & Hnot)].
    + left. apply option_flags_In. split; [exact Hin | exact Hno].
    + right. split; [reflexivity |]. split; [reflexivity |].
      intros Hin. apply Hnot. apply Hfs. exact Hin.
Qed.

(** ** [utimens] *)

Lemma timespec_reencoded (plat : platform) (ts ts0 : c_timespec) :
  0 < tv_sec_bits plat ->
  32 <= tv_nsec_bits plat ->
  in_range true (tv_sec_bits plat) (tv_sec ts) ->
  0 <= tv_nsec ts < 10 ^ 9 ->
  set_timespec plat ts0 (VInt (tv_sec ts * 10 ^ 9 + tv_nsec ts)) true = (Ok tt, ts).
Proof.
  intros Hs Hn Hsec Hnsec. unfold in_range in Hsec.
  assert (Hd : (tv_sec ts * 10 ^ 9 + tv_nsec ts) / 10 ^ 9 = tv_sec ts).
  { change (10 ^ 9) with 1000000000 in *. div_lia. }
  assert (Hm : (tv_sec ts * 10 ^ 9 + tv_nsec ts) mod 10 ^ 9 = tv_nsec ts).
  { change (10 ^ 9) with 1000000000 in *. div_lia. }
  rewrite (set_timespec_ns plat ts0 _ Hs Hn) by (rewrite Hd; exact Hsec).
  rewrite Hd, Hm. destruct ts. reflexivity.
Qed.

(** X23: in the nanosecond representation [utimens] hands the
    implementation, for each of the two timespecs of the request (seconds
    that fit the [tv_sec] field, nanoseconds in [0, 10 ^ 9)), the integer
    that [set_st_attrs] stores back as that same timespec; with a NULL
    buffer it hands over [None]. *)
Theorem utimens_times_roundtrip (plat : platform) (self : FUSE) (path : bytes)
    (p : string) (b : c_utimbuf) (ts0 : c_timespec) :
  use_ns self = true ->
  decode (encoding self) path = Some p ->
  0 < tv_sec_bits plat ->
  32 <= tv_nsec_bits plat ->
  in_range true (tv_sec_bits plat) (tv_sec (actime b)) ->
  0 <= tv_nsec (actime b) < 10 ^ 9 ->
  in_range true (tv_sec_bits plat) (tv_sec (modtime b)) ->
  0 <= tv_nsec (modtime b) < 10 ^ 9 ->
  exists a m,
    calls_made (utimens self path (Ptr b)) tt
      = [("utimens"%string, [VStr p; VTuple [VInt a; VInt m]])] /\
    set_timespec plat ts0 (VInt a) true = (Ok tt, actime b) /\
    set_timespec plat ts0 (VInt m) true = (Ok tt, modtime b) /\
    calls_made (utimens self path NULL) tt = [("utimens"%string, [VStr p; VNone])].
Proof.
  intros Hns Hp Hs Hn Ha1 Ha2 Hm1 Hm2.
  exists (tv_sec (actime b) * 10 ^ 9 + tv_nsec (actime b)),
         (tv_sec (modtime b) * 10 ^ 9 + tv_nsec (modtime b)).
  split; [| split; [| split]].
  - unfold calls_made, run_callback, utimens, bind, decode_path, call_operations,
      time_of_timespec.
    rewrite Hns, Hp. reflexivity.
  - apply timespec_reencoded; assumption.
  - apply timespec_reencoded; assumption.
  - unfold calls_made, run_callback, utimens, bind, decode_path, call_operations.
    rewrite Hp. reflexivity.
Qed.

Lemma utimens_times_roundtrip_witness :
  exists a m,
    calls_made (utimens ns_adapter a_path (Ptr some_times)) tt
      = [("utimens"%string, [VStr "/f"; VTuple [VInt a; VInt m]])] /\
    set_timespec linux_x86_64 zero_timespec (VInt a) true = (Ok tt, actime some_times) /\
    set_timespec linux_x86_64 zero_timespec (VInt m) true = (Ok tt, modtime some_times) /\
    calls_made (utimens ns_adapter a_path NULL) tt
      = [("utimens"%string, [VStr "/f"; VNone])].
Proof.
  apply (utimens_times_roundtrip linux_x86_64 ns_adapter a_path "/f" some_times
           zero_timespec).
  - reflexivity.
  - reflexivity.
  - reflexivity.
  - discriminate.
  - split; vm_compute; [discriminate | reflexivity].
  - split; vm_compute; [discriminate | reflexivity].
  - split; vm_compute; [discriminate | reflexivity].
  - split; vm_compute; [discriminate | reflexivity].
Defined.

(** ** A text value for an extended attribute *)

(** X24: an implementation whose [getxattr] returns a text instead of
    bytes: the size query (NULL buffer) is answered with the number of
    characters, a buffer smaller than that gets [-ERANGE], but with a buffer
    that is large enough the copy raises [TypeError]: the envelope answers
    [-EINVAL] and the buffer is untouched. *)
Theorem getxattr_text_value (self : FUSE) (path name : bytes) (size : Z)
    (args : list pyval) (p n t : string) (mem : bytes) (s : session) :
  decode (encoding self) path = Some p ->
  decode (encoding self) name = Some n ->
  Operations__call__ (operations self) "getxattr" ([VStr p; VStr n] ++ args)
    = Ok (VStr t) ->
  let k := Z.of_nat (String.length t) in
  let log := [("getxattr"%string, [VStr p; VStr n] ++ args)] in
  run_callback (getxattr self path name size args) NULL
    = (Ok (VInt k), mk_world log NULL) /\
  (size < k ->
   run_callback (getxattr self path name size args) (Ptr mem)
   = (Ok (VInt (- errno.ERANGE)), mk_world log (Ptr mem))) /\
  (k <= size ->
   _wrapper (mk_func "getxattr" (getxattr self path name size args)) s
     (mk_world [] (Ptr mem))
   = (VInt (- errno.EINVAL), s, mk_world log (Ptr mem))).
Proof.
  intros Hp Hn Hop k log.
  assert (Hrun : forall value,
    run_callback (getxattr self path name size args) value
    = match value with
      | NULL => (Ok (VInt k), mk_world log NULL)
      | Ptr mem0 =>
          if size <? k then (Ok (VInt (- errno.ERANGE)), mk_world log (Ptr mem0))
          else (Raise TypeError, mk_world log (Ptr mem0))
      end).
  { intros value.
    unfold run_callback, getxattr, bind, decode_path, call_operations, ret, raise,
      get_native.
    cbn [app] in Hop. rewrite Hp. cbn. rewrite Hn. cbn. rewrite Hop. cbn.
    destruct value as [| mem0]; cbn; [reflexivity |].
    fold k. destruct (size <? k); reflexivity. }
  split; [apply (Hrun NULL) |]. split.
  - intros Hlt. rewrite (Hrun (Ptr mem)).
    destruct (Z.ltb_spec size k); [reflexivity | lia].
  - intros Hle.
    apply (wrapper_Exception (mk_func "getxattr" (getxattr self path name size args))
             s (mk_world [] (Ptr mem)) (mk_world log (Ptr mem)) TypeError);
      [discriminate | | reflexivity | reflexivity].
    cbn [body]. pose proof (Hrun (Ptr mem)) as H. unfold run_callback in H.
    rewrite H. destruct (Z.ltb_spec size k); [lia | reflexivity].
Qed.

Lemma getxattr_text_value_witness :
  run_callback (getxattr text_xattr_adapter a_path a_name 0 []) NULL
    = (Ok (VInt 3),
       mk_world [("getxattr"%string, [VStr "/f"; VStr "user.a"])] NULL)
  /\ _wrapper (mk_func "getxattr" (getxattr text_xattr_adapter a_path a_name 4 []))
       session0 (mk_world [] (Ptr four_bytes))
     = (VInt (- 22), session0,
        mk_world [("getxattr"%string, [VStr "/f"; VStr "user.a"])] (Ptr four_bytes)).
Proof.
  pose proof (getxattr_text_value text_xattr_adapter a_path a_name 0 [] "/f"
                "user.a" "abc" four_bytes session0 eq_refl eq_refl eq_refl)
    as (H1 & _).
  pose proof (getxattr_text_value text_xattr_adapter a_path a_name 4 [] "/f"
                "user.a" "abc" four_bytes session0 eq_refl eq_refl eq_refl)
    as (_ & _ & H3).
  split; [exact H1 |]. apply H3. discriminate.
Defined.

(** ** The exit request *)

Lemma callback_cases (r : request) (s : session) :
  snd (callback r s) = s \/
  exists e, snd (callback r s)
            = {| critical_exception := Some e; exit_requested := true |}.
Proof.
  unfold callback, _wrapper. destruct r as [S f w]. cbn.
  destruct (body f w) as [[v | e] w'];
    destruct (String.eqb (__name__ f) "init"); cbn;
    try (left; reflexivity); try (right; exists e; reflexivity).
  destruct (isinstance_OSError e) as [[en |] |]; cbn; try (left; reflexivity).
  - destruct (0 <? en); left; reflexivity.
  - destruct (isinstance_Exception e); cbn;
      [left; reflexivity | right; exists e; reflexivity].
Qed.

Lemma loop_exit_invariant (requests : list request) (s : session) :
  (exit_requested s = true <-> is_Some (critical_exception s)) ->
  (exit_requested (fuse_main_real requests s) = true
   <-> is_Some (critical_exception (fuse_main_real requests s))).
Proof.
  revert s. induction requests as [| r rest IH]; intros s Hinv; cbn.
  - exact Hinv.
  - apply IH. destruct (callback_cases r s) as [-> | [e ->]]; [exact Hinv |].
    cbn. split; [intros _; eexists; reflexivity | reflexivity].
Qed.

(** X27: the adapter asks the native session to exit exactly when it has
    recorded a critical exception: after any sequence of requests the exit
    is requested if and only if an exception is recorded, and when it is
    not, the mount call returns normally exactly for the status 0 of the
    native loop. *)
Theorem exit_requested_iff_critical (requests : list request) :
  let s := fuse_main_real requests session0 in
  (exit_requested s = true <-> is_Some (critical_exception s)) /\
  (exit_requested s = false -> forall err, err = 0 <-> after_loop s err = Ok tt).
Proof.
  intros s.
  assert (Hinv : exit_requested s = true <-> is_Some (critical_exception s)).
  { subst s. apply loop_exit_invariant. cbn. split; [discriminate |].
    intros [e He]. discriminate. }
  split; [exact Hinv |]. intros Hfalse err. unfold after_loop.
  destruct (critical_exception s) as [e |].
  - assert (exit_requested s = true) by (apply Hinv; eexists; reflexivity). congruence.
  - destruct (Z.eqb_spec err 0); cbn; split; congruence.
Qed.

(** ** [readdir] and [readlink] on a directory and a link *)


Lemma readlink_truncates_witness :
  run_callback (readlink link_adapter a_path 3) four_bytes
  = (Ok (VInt 0),
     mk_world [("readlink"%string, [VStr "/f"])]
       [Byte.x61; Byte.x62; Byte.x00; Byte.xff]).
Proof.
  refine (proj1 (readlink_truncates link_adapter a_path 3 "/f" "abc"
                   (list_byte_of_string "abc") four_bytes _ _ _ _)).
  - reflexivity.
  - reflexivity.
  - reflexivity.
  - discriminate.
Defined.
